(** * Spoticus: command dispatch, launch validation and cluster listing

    A shallow embedding of the Go packages [handlers] (the command registry
    and [HandleMessageEvent]) and [commands] ([HandleLaunch], [HandleList] and
    their helpers), together with the start-up path of [main].

    Go strings are byte sequences; they are modelled by [string], whose
    characters are the bytes of the UTF-8 text of the source literals.
    Effects (messages posted to Slack, lines written with [log.Printf]) are
    collected in order in a trace; a run-time panic ends the trace. *)

From stdpp Require Import gmap strings list fin_maps.
From Stdlib Require Import Ascii DecimalString NArith Permutation.

Local Open Scope string_scope.
Local Open Scope nat_scope.
Local Open Scope list_scope.

(** ** Package [strings] of the Go library *)

Definition isUpperASCII (c : ascii) : bool :=
  ((65 <=? N_of_ascii c) && (N_of_ascii c <=? 90))%N.

Definition toLowerASCII (c : ascii) : ascii :=
  if isUpperASCII c then ascii_of_N (N_of_ascii c + 32) else c.

(** Every byte of [s] is below [utf8.RuneSelf]. *)
Fixpoint isASCII (s : string) : bool :=
  match s with
  | EmptyString => true
  | String c s' => (N_of_ascii c <? 128)%N && isASCII s'
  end.

Fixpoint hasUpper (s : string) : bool :=
  match s with
  | EmptyString => false
  | String c s' => isUpperASCII c || hasUpper s'
  end.

(** The loop of [strings.ToLower] over an ASCII string. *)
Fixpoint lowerBytes (s : string) : string :=
  match s with
  | EmptyString => EmptyString
  | String c s' => String (toLowerASCII c) (lowerBytes s')
  end.

(** What [strings.ToLower] does with a string that is not all ASCII:
    [Map(unicode.ToLower, s)], which decodes the runes of [s] and maps each
    through the case tables of package [unicode]. The tables belong to the
    Go library, not to this repository; the function is taken as a
    parameter, and every statement holds whatever it is. *)
Class UnicodeTables : Type := Map_unicode_ToLower : string -> string.

(** [strings.ToLower]: an ASCII string without upper-case letters is
    returned as it is, another ASCII string has ['A'..'Z'] mapped to
    ['a'..'z'], and any other string goes through the Unicode tables. *)
Definition ToLower `{UnicodeTables} (s : string) : string :=
  if isASCII s then
    if negb (hasUpper s) then s else lowerBytes s
  else Map_unicode_ToLower s.

Definition asciiSpace (c : ascii) : bool :=
  let n := N_of_ascii c in
  ((9 <=? n) && (n <=? 13) || (n =? 32))%N.

(** Width in bytes of the white-space rune at the head of [s], [0] when [s]
    does not start with one. The runes are those of [unicode.IsSpace]: the
    ASCII ones, U+0085, U+00A0, U+1680, U+2000..U+200A, U+2028, U+2029,
    U+202F, U+205F and U+3000, in their UTF-8 encoding. *)
Definition spaceWidth (s : string) : nat :=
  match s with
  | EmptyString => 0
  | String c0 rest =>
      if asciiSpace c0 then 1
      else
        let b0 := N_of_ascii c0 in
        match rest with
        | String c1 rest1 =>
            let b1 := N_of_ascii c1 in
            if ((b0 =? 194) && ((b1 =? 133) || (b1 =? 160)))%N then 2
            else
              match rest1 with
              | String c2 _ =>
                  let b2 := N_of_ascii c2 in
                  if ((b0 =? 225) && (b1 =? 154) && (b2 =? 128))%N then 3
                  else if ((b0 =? 226) && (b1 =? 128) &&
                           ((128 <=? b2) && (b2 <=? 138) ||
                            (b2 =? 168) || (b2 =? 169) || (b2 =? 175)))%N then 3
                  else if ((b0 =? 226) && (b1 =? 129) && (b2 =? 159))%N then 3
                  else if ((b0 =? 227) && (b1 =? 128) && (b2 =? 128))%N then 3
                  else 0
              | EmptyString => 0
              end
        | EmptyString => 0
        end
  end.

Definition flushField (cur : string) : list string :=
  match cur with
  | EmptyString => []
  | _ => [cur]
  end.

(** The scan of [strings.Fields]: [skip] counts the bytes still to pass of
    the white-space rune being read, [cur] is the field read so far. *)
Fixpoint FieldsFrom (skip : nat) (cur : string) (s : string) : list string :=
  match s with
  | EmptyString => flushField cur
  | String c rest =>
      match skip with
      | S k => FieldsFrom k cur rest
      | O =>
          match spaceWidth s with
          | O => FieldsFrom 0 (cur +:+ String c EmptyString) rest
          | S k => flushField cur ++ FieldsFrom k EmptyString rest
          end
      end
  end.

(** [strings.Fields]: the maximal runs of non-white-space bytes, in order. *)
Definition Fields (s : string) : list string := FieldsFrom 0 EmptyString s.

(** The scan of [strings.TrimSpace]: white space is held back in [pending]
    and written out only when something else follows it; white space before
    the first other byte ([started = false]) is dropped. *)
Fixpoint TrimSpaceFrom (started : bool) (skip : nat) (pending : string)
    (s : string) : string :=
  match s with
  | EmptyString => EmptyString
  | String c rest =>
      match skip with
      | S k => TrimSpaceFrom started k (pending +:+ String c EmptyString) rest
      | O =>
          match spaceWidth s with
          | O =>
              (if started then pending else EmptyString)
                +:+ String c (TrimSpaceFrom true 0 EmptyString rest)
          | S k =>
              TrimSpaceFrom started k (pending +:+ String c EmptyString) rest
          end
      end
  end.

(** [strings.TrimSpace] *)
Definition TrimSpace (s : string) : string :=
  TrimSpaceFrom false 0 EmptyString s.


(** [strings.Contains] *)
Fixpoint Contains (s substr : string) : bool :=
  String.prefix substr s
  || match s with
     | EmptyString => false
     | String _ s' => Contains s' substr
     end.

(** The verb [%d] of [fmt] on a non-negative [int]. *)
Definition fmt_d (n : nat) : string := NilZero.string_of_uint (Nat.to_uint n).

(** The verb [%v] of [fmt] on an [error]: the text of the error, and
    ["<nil>"] for the nil error. *)
Definition fmt_v (err : option string) : string :=
  match err with
  | None => "<nil>"
  | Some e => e
  end.

(** ** Effects *)

Inductive Effect : Type :=
| PostMessage (channel text : string)
| LogPrintf (line : string).

(** A computation writes a trace of effects and then either returns a value
    or panics ([None]); nothing runs after a panic. *)
Definition W (A : Type) : Type := (list Effect * option A)%type.

Definition ret {A} (a : A) : W A := ([], Some a).

Definition bind {A B} (m : W A) (k : A -> W B) : W B :=
  match m with
  | (t, Some a) => let '(t', r) := k a in (t ++ t', r)
  | (t, None) => (t, None)
  end.

Definition panic {A} : W A := ([], None).

Definition emit (e : Effect) : W unit := ([e], Some tt).

Notation "x <- m ;; k" := (bind m (fun x => k))
  (at level 100, m at next level, right associativity).
Notation "m ;;; k" := (bind m (fun _ => k))
  (at level 100, right associativity).

Definition trace {A} (m : W A) : list Effect := fst m.
Definition result {A} (m : W A) : option A := snd m.

(** The messages posted, as (channel, text), in order. *)
Fixpoint posts (t : list Effect) : list (string * string) :=
  match t with
  | [] => []
  | PostMessage c x :: t' => (c, x) :: posts t'
  | LogPrintf _ :: t' => posts t'
  end.

(** ** The Slack client and the inbound event *)

(** [*slack.Client], as far as the handlers use it: [PostMessage_err c x] is
    the error that [api.PostMessage(c, MsgOptionText(x, false))] returns. *)
Record Client : Type := { PostMessage_err : string -> string -> option string }.

(** [slackevents.MessageEvent], the fields the handlers read. *)
Record MessageEvent : Type := {
  BotID : string;
  Text : string;
  User : string;
  Channel : string
}.

(** ** Ranging over a Go map

    [for k, v := range m] visits every entry of [m] once, in an order the
    run time picks anew for each loop. The order is modelled by [seed]: the
    entries are taken in turn and each is put at the position the seed
    names among those already placed. *)

Fixpoint insert_at {A} (i : nat) (x : A) (l : list A) : list A :=
  match i, l with
  | O, _ => x :: l
  | S i', y :: l' => y :: insert_at i' x l'
  | S _, [] => [x]
  end.

Fixpoint shuffle {A} (seed : list nat) (l : list A) : list A :=
  match l with
  | [] => []
  | x :: l' => insert_at (hd 0 seed) x (shuffle (tl seed) l')
  end.

Definition range_map {V} (seed : list nat) (m : gmap string V)
  : list (string * V) :=
  shuffle seed (map_to_list m).

(** ** The control plane, as the handlers see it *)

(** A Go call that returns a value and an [error]. *)
Inductive Result (A : Type) : Type :=
| Ok (a : A)
| Err (e : string).
Arguments Ok {A} a.
Arguments Err {A} e.

(** [time.Time], by the fields [Format] prints: the results of [t.Date()]
    and [t.Clock()]. *)
Record Time : Type := {
  Year : nat;
  Month : nat;
  Day : nat;
  Hour : nat;
  Minute : nat;
  Second : nat
}.

(** An item of [maptApi.KindList], by the fields [HandleList] reads. *)
Record Kind : Type := {
  Name : string;
  Namespace : string;
  CreationTimestamp : Time
}.

(** An item of [unstructured.UnstructuredList], by the getters
    [HandleList] calls. *)
Record Unstructured : Type := {
  GetName : string;
  GetNamespace : string;
  GetCreationTimestamp : Time
}.

(** [crclient.Client], by the three [List] calls of the package: into a
    [KindList], into the list tagged [mapt.redhat.com/v1alpha1 OpenshiftList],
    and the call of [HandleLaunch] into its nil [*KindList], of which only
    the returned error is looked at. That last call is taken to return. *)
Record CrClientT : Type := {
  List_KindList : Result (list Kind);
  List_OpenshiftList : Result (list Unstructured);
  List_nil : option string
}.

(** [KubernetesClients]; [KubeClient] and [DynamicClient] are never read. *)
Record KubernetesClients : Type := { CrClient : CrClientT }.

(** What surrounds one handler call: the outcome of each step of client
    construction, and the order the run time gives to the map loop of the
    call (no handler runs more than one). *)
Record World : Type := {
  config_GetConfig : option string;
  kubernetes_NewForConfig : option string;
  dynamic_NewForConfig : option string;
  crclient_New : Result CrClientT;
  range_seed : list nat
}.

(** [GetKubernetesClient]: the pointer (nil is [None]) and the error. *)
Definition GetKubernetesClient (w : World)
  : option KubernetesClients * option string :=
  match config_GetConfig w with
  | Some err => (None, Some err)
  | None =>
      match kubernetes_NewForConfig w with
      | Some err => (None, Some err)
      | None =>
          match dynamic_NewForConfig w with
          | Some err => (None, Some err)
          | None =>
              match crclient_New w with
              | Err err => (None, Some err)
              | Ok crClient => (Some {| CrClient := crClient |}, None)
              end
          end
      end
  end.

(** ** Package [commands]: what both versions of the file share *)

Definition LF : string := String (ascii_of_nat 10) EmptyString.

Definition launchUsage : string :=
  "" +:+
  "📦 *Launch Command — Detailed Usage*" +:+ LF +:+ LF +:+
  "This command provisions a new cluster using a specified platform and resource tier." +:+ LF +:+ LF +:+
  "🔧 *Syntax*:" +:+ LF +:+
  "```" +:+ LF +:+
  "launch <cluster_type> <size>" +:+ LF +:+
  "```" +:+ LF +:+ LF +:+
  "🧪 *Examples*:" +:+ LF +:+
  "```" +:+ LF +:+
  "launch k8s large" +:+ LF +:+
  "launch openshift medium" +:+ LF +:+
  "```" +:+ LF +:+ LF +:+
  "🧱 *Supported Cluster Types*:" +:+ LF +:+
  "• `k8s` — Standard upstream Kubernetes cluster" +:+ LF +:+
  "• `openshift` — Red Hat OpenShift Container Platform" +:+ LF +:+
  "_Only these values are accepted. Input is case-insensitive._" +:+ LF +:+ LF +:+
  "📐 *Supported Sizes*:" +:+ LF +:+
  "• `medium` — 8 CPUs / 32 GB RAM" +:+ LF +:+
  "• `large` — 16 CPUs / 64 GB RAM" +:+ LF +:+
  "• `xlarge` — 32 CPUs / 128 GB RAM" +:+ LF +:+ LF +:+
  "💰 *⚡ Spot Instances (Cost Optimization)*:" +:+ LF +:+
  "All clusters are provisioned using **cloud spot instances** for maximum cost-efficiency." +:+ LF.

Definition supportedClusterTypes : gmap string unit :=
  list_to_map [("k8s", tt); ("openshift", tt)].

Record SizeSpec : Type := { CPU : string; RAM : string }.

Definition supportedSizes : gmap string SizeSpec :=
  list_to_map
    [("medium", {| CPU := "8 CPUs"; RAM := "32 GB RAM" |});
     ("large", {| CPU := "16 CPUs"; RAM := "64 GB RAM" |});
     ("xlarge", {| CPU := "32 CPUs"; RAM := "128 GB RAM" |})].

Definition isSupportedClusterType (t : string) : bool :=
  match supportedClusterTypes !! t with
  | Some _ => true
  | None => false
  end.

(** One turn of the loop of [formatSupportedSizes]. *)
Definition sizeLine (entry : string * SizeSpec) : string :=
  "• `" +:+ entry.1 +:+ "`: " +:+ CPU entry.2 +:+ ", " +:+ RAM entry.2 +:+ LF.

Definition formatSupportedSizes (seed : list nat) : string :=
  fold_left (fun b entry => b +:+ sizeLine entry)
            (range_map seed supportedSizes) EmptyString.

Definition respondError (api : Client) (channel text : string) : W unit :=
  emit (PostMessage channel text) ;;;
  match PostMessage_err api channel text with
  | Some err => emit (LogPrintf ("Slack error response failed: " +:+ err))
  | None => ret tt
  end.

(** The texts [HandleLaunch] composes with [fmt.Sprintf]. *)
Definition missingArgumentsText : string :=
  "❌ Missing arguments." +:+ LF +:+ LF +:+ launchUsage.

Definition unsupportedTypeText (clusterType : string) : string :=
  "❌ Unsupported cluster type: *" +:+ clusterType +:+ "*" +:+ LF +:+
  "Supported types: `k8s`, `openshift`".

Definition invalidSizeText (size sizes : string) : string :=
  "❌ Invalid size: *" +:+ size +:+ "*" +:+ LF +:+
  "Valid sizes:" +:+ LF +:+ sizes.

Definition launchText (clusterType size user : string) (spec : SizeSpec)
  : string :=
  "🚀 Launching a *" +:+ clusterType +:+ "* cluster of size *" +:+ size +:+
  "* for <@" +:+ user +:+ ">" +:+ LF +:+
  "• CPU: " +:+ CPU spec +:+ LF +:+
  "• Memory: " +:+ RAM spec.

(** The part of [HandleLaunch] from the reading of [args[0]] and [args[1]]
    on; it is the same text in both versions of the file. *)
Definition launchValidated `{UnicodeTables} (w : World) (api : Client) (event : MessageEvent)
    (arg0 arg1 : string) : W unit :=
  let clusterType := ToLower arg0 in
  let size := ToLower arg1 in
  if negb (isSupportedClusterType clusterType) then
    respondError api (Channel event) (unsupportedTypeText clusterType)
  else
    match supportedSizes !! size with
    | None =>
        respondError api (Channel event)
          (invalidSizeText size (formatSupportedSizes (range_seed w)))
    | Some spec =>
        emit (LogPrintf ("Launching cluster: user=" +:+ User event +:+
                         " type=" +:+ clusterType +:+ " size=" +:+ size)) ;;;
        let message := launchText clusterType size (User event) spec in
        emit (PostMessage (Channel event) message) ;;;
        match PostMessage_err api (Channel event) message with
        | Some err =>
            emit (LogPrintf ("Error posting launch message: " +:+ err))
        | None => ret tt
        end
    end.

(** ** [internal/slack/commands/launch.go] *)

Module launch_go.

Definition HandleLaunch `{UnicodeTables} (w : World) (api : Client) (event : MessageEvent)
    (args : list string) : W unit :=
  if length args <? 2 then
    respondError api (Channel event) missingArgumentsText
  else
    launchValidated w api event (nth 0 args EmptyString)
      (nth 1 args EmptyString).

End launch_go.

(** ** The version of package [commands] with the control-plane calls *)

Module commands.

(** [HandleLaunch] with the client construction and the [List] call between
    the length check and the validation. [client.CrClient] on the nil
    [client] that [GetKubernetesClient] returns with an error is a nil
    pointer dereference. *)
Definition HandleLaunch `{UnicodeTables} (w : World) (api : Client) (event : MessageEvent)
    (args : list string) : W unit :=
  if length args <? 2 then
    respondError api (Channel event) missingArgumentsText
  else
    let '(client, err) := GetKubernetesClient w in
    emit (LogPrintf ("Error getting kubernetes clinet: " +:+ fmt_v err)) ;;;
    match client with
    | None => panic
    | Some client =>
        let maptErr := List_nil (CrClient client) in
        emit (LogPrintf ("Error getting mapt list: " +:+ fmt_v maptErr)) ;;;
        launchValidated w api event (nth 0 args EmptyString)
          (nth 1 args EmptyString)
    end.

Definition digit (d : nat) : ascii := ascii_of_nat (48 + d).

(** [appendInt] of package [time]: [x] in decimal, padded with zeros on the
    left to [width]; two and four digit fields have their own branch. *)
Definition appendInt (x width : nat) : string :=
  if (width =? 2) && (x <? 100) then
    String (digit (x / 10)) (String (digit (x mod 10)) EmptyString)
  else if (width =? 4) && (x <? 100 * 100) then
    String (digit (x / 1000))
      (String (digit (x / 100 mod 10))
         (String (digit (x / 10 mod 10))
            (String (digit (x mod 10)) EmptyString)))
  else
    let digits := fmt_d x in
    String.concat EmptyString (repeat "0" (width - String.length digits))
      +:+ digits.

(** [t.Format("2006-01-02 15:04:05")] *)
Definition Format (t : Time) : string :=
  appendInt (Year t) 4 +:+ "-" +:+ appendInt (Month t) 2 +:+ "-" +:+
  appendInt (Day t) 2 +:+ " " +:+ appendInt (Hour t) 2 +:+ ":" +:+
  appendInt (Minute t) 2 +:+ ":" +:+ appendInt (Second t) 2.

Definition emptyListText : string :=
  "📋 *Cluster List*" +:+ LF +:+ LF +:+ "No MAPT clusters currently running.".

Definition listHeader (totalClusters : nat) : string :=
  "📋 *Cluster List* (" +:+ fmt_d totalClusters +:+ " cluster" +:+
  (if totalClusters =? 1 then "" else "s") +:+ ")" +:+ LF +:+ LF.

(** The text one turn of either loop of [HandleList] formats; [label] is
    [Kubernetes] in the first loop and [OpenShift] in the second. *)
Definition entryText (label name namespace created : string) : string :=
  "🔸 *" +:+ name +:+ "* (" +:+ label +:+ ")" +:+ LF +:+
  "   • Namespace: " +:+ namespace +:+ LF +:+
  "   • Created: " +:+ created +:+ LF.

Definition kindEntry (cluster : Kind) : string :=
  entryText "Kubernetes" (Name cluster) (Namespace cluster)
    (Format (CreationTimestamp cluster)).

Definition openshiftEntry (cluster : Unstructured) : string :=
  let name := GetName cluster in
  let namespace := GetNamespace cluster in
  let creationTime := Format (GetCreationTimestamp cluster) in
  entryText "OpenShift" name namespace creationTime.

(** One turn of a loop of [HandleList] on the builder [message] and the
    counter [clusterIndex]. *)
Definition writeEntry (totalClusters : nat) (st : string * nat)
    (entry : string) : string * nat :=
  let message := st.1 +:+ entry in
  let message :=
    if st.2 <? totalClusters - 1 then message +:+ LF else message in
  (message, S st.2).

Definition listText (kinds : list Kind) (openshifts : list Unstructured)
  : string :=
  let totalClusters := length kinds + length openshifts in
  let st := (listHeader totalClusters, 0) in
  let st :=
    fold_left (fun st cluster => writeEntry totalClusters st (kindEntry cluster))
      kinds st in
  let st :=
    fold_left
      (fun st cluster => writeEntry totalClusters st (openshiftEntry cluster))
      openshifts st in
  st.1.

Definition postList (api : Client) (event : MessageEvent) (message : string)
  : W unit :=
  emit (PostMessage (Channel event) message) ;;;
  match PostMessage_err api (Channel event) message with
  | Some err => emit (LogPrintf ("Error posting list message: " +:+ err))
  | None => ret tt
  end.

Definition HandleList (w : World) (api : Client) (event : MessageEvent)
    (args : list string) : W unit :=
  let '(client, err) := GetKubernetesClient w in
  match err with
  | Some e =>
      emit (LogPrintf ("Error getting kubernetes client: " +:+ e)) ;;;
      respondError api (Channel event)
        "❌ Failed to connect to Kubernetes cluster"
  | None =>
      match client with
      | None => panic
      | Some client =>
          match List_KindList (CrClient client) with
          | Err e =>
              emit (LogPrintf ("Error listing MAPT kind clusters: " +:+ e)) ;;;
              respondError api (Channel event)
                "❌ Failed to retrieve cluster list"
          | Ok kindsItems =>
              match List_OpenshiftList (CrClient client) with
              | Err e =>
                  emit (LogPrintf
                          ("Error listing MAPT openshift clusters: " +:+ e)) ;;;
                  respondError api (Channel event)
                    "❌ Failed to retrieve cluster list"
              | Ok openshiftsItems =>
                  let totalClusters :=
                    length kindsItems + length openshiftsItems in
                  if totalClusters =? 0 then
                    postList api event emptyListText
                  else
                    let message := listText kindsItems openshiftsItems in
                    emit (LogPrintf
                            ("Listed " +:+ fmt_d totalClusters +:+
                             " MAPT clusters (" +:+
                             fmt_d (length kindsItems) +:+ " kinds, " +:+
                             fmt_d (length openshiftsItems) +:+
                             " openshifts) for user " +:+ User event)) ;;;
                    postList api event message
              end
          end
      end
  end.

End commands.

(** ** Package [handlers] *)

Module handlers.

(** The functions a [Command] can hold in its [Handler] field. *)
Inductive CommandHandler : Type :=
| commands_HandleLaunch
| commands_HandleList
| handleHelp_fn.

Record Command : Type := {
  Description : string;
  Usage : string;
  Handler : CommandHandler
}.

(** The two entries of the composite literal of [commandRegistry]. *)
Definition launchCommand : Command :=
  {| Description := "Launch a cluster with specified type and size.";
     Usage := "`launch <cluster_type> <size>`" +:+ LF +:+
              "Example: `launch kubernetes large`";
     Handler := commands_HandleLaunch |}.

Definition listCommand : Command :=
  {| Description := "List all mapt clusters.";
     Usage := "`list`";
     Handler := commands_HandleList |}.

(** The composite literal that initialises the variable [commandRegistry]. *)
Definition commandRegistry_literal : gmap string Command :=
  list_to_map [("launch", launchCommand); ("list", listCommand)].

Definition helpCommand : Command :=
  {| Description := "Show available commands and usage.";
     Usage := "`help`";
     Handler := handleHelp_fn |}.

(** [func init()], on the variable [commandRegistry]. *)
Definition init (commandRegistry : gmap string Command)
  : gmap string Command :=
  <["help" := helpCommand]> commandRegistry.

(** The registry when [main] starts. *)
Definition commandRegistry : gmap string Command :=
  init commandRegistry_literal.

(** A function of the package runs on the variable [commandRegistry] and
    leaves it in some state when it returns. *)
Definition G (A : Type) : Type :=
  gmap string Command -> W (A * gmap string Command).

Definition helpEntry (entry : string * Command) : string :=
  LF +:+ "• *" +:+ entry.1 +:+ "* — " +:+ Description entry.2 +:+ LF +:+
  "  _Usage:_ " +:+ Usage entry.2 +:+ LF.

Definition helpText (seed : list nat) (commandRegistry : gmap string Command)
  : string :=
  fold_left (fun msg entry => msg +:+ helpEntry entry)
    (range_map seed commandRegistry)
    ("📖 *Available commands:*" +:+ LF).

Definition handleHelp (w : World) (api : Client) (event : MessageEvent)
    (args : list string) : G unit :=
  fun commandRegistry =>
    emit (PostMessage (Channel event)
            (helpText (range_seed w) commandRegistry)) ;;;
    ret (tt, commandRegistry).

(** The call [command.Handler(api, event, args)]. *)
Definition call `{UnicodeTables} (h : CommandHandler) (w : World) (api : Client)
    (event : MessageEvent) (args : list string) : G unit :=
  fun commandRegistry =>
    match h with
    | commands_HandleLaunch =>
        commands.HandleLaunch w api event args ;;; ret (tt, commandRegistry)
    | commands_HandleList =>
        commands.HandleList w api event args ;;; ret (tt, commandRegistry)
    | handleHelp_fn => handleHelp w api event args commandRegistry
    end.

Definition HandleMessageEvent `{UnicodeTables} (w : World) (api : Client)
    (event : MessageEvent) : G unit :=
  fun commandRegistry =>
    if negb (String.eqb (BotID event) "") then ret (tt, commandRegistry)
    else
      let text := TrimSpace (Text event) in
      let fields := Fields text in
      if length fields =? 0 then ret (tt, commandRegistry)
      else
        let cmd := ToLower (nth 0 fields EmptyString) in
        let args := drop 1 fields in
        match commandRegistry !! cmd with
        | None =>
            emit (LogPrintf ("Unknown command '" +:+ cmd +:+ "' from user " +:+
                             User event +:+ " in channel " +:+ Channel event +:+
                             ". Showing help.")) ;;;
            handleHelp w api event [] commandRegistry
        | Some command =>
            emit (LogPrintf ("Received '" +:+ cmd +:+ "' command from user " +:+
                             User event +:+ " in channel " +:+
                             Channel event)) ;;;
            call (Handler command) w api event args commandRegistry
        end.

End handlers.

(** ** Start-up and the event loop *)

(** How start-up ends: [log.Fatal] with a message, or the bot running on
    the registry that the package initialisation left. *)
Inductive Startup : Type :=
| Fatal (message : string)
| Running (commandRegistry : gmap string handlers.Command).

(** [main], after the package initialisation: the two tokens are read from
    the environment; [slack.New] returns no error, since [events.NewBot]
    returns none. *)
Definition main (botToken appToken : string)
    (commandRegistry : gmap string handlers.Command) : Startup :=
  if String.eqb botToken "" then
    Fatal "FATAL: SLACK_BOT_TOKEN environment variable is not set."
  else if String.eqb appToken "" then
    Fatal "FATAL: SLACK_APP_TOKEN environment variable is not set."
  else Running commandRegistry.

(** The whole start-up from a registry literal: variable initialisation,
    [init], then [main]. *)
Definition startup (literal : gmap string handlers.Command)
    (botToken appToken : string) : Startup :=
  main botToken appToken (handlers.init literal).

(** One message event delivered to the bot, with what surrounds its
    handling. *)
Record Delivery : Type := {
  world : World;
  api : Client;
  event : MessageEvent
}.

(** The loop of [Run]: the events are handled one after the other by
    [Bot.HandleEvent]; a panic ends the process. The result is the trace and,
    unless the process died, the registry at the end. *)
Fixpoint Run `{UnicodeTables} (deliveries : list Delivery)
    (commandRegistry : gmap string handlers.Command)
  : W (gmap string handlers.Command) :=
  match deliveries with
  | [] => ret commandRegistry
  | d :: rest =>
      r <- handlers.HandleMessageEvent (world d) (api d) (event d)
             commandRegistry ;;
      Run rest r.2
  end.

(** ** Package [events] and the loop of [Slack.Run] *)

Module events.

(** [event.InnerEvent.Data]: a [*slackevents.MessageEvent] or a value of any
    other type. *)
Inductive InnerEventData : Type :=
| MessageEventData (e : MessageEvent)
| OtherInnerEventData.

(** [Bot.HandleEvent]: the type switch has the message case only. *)
Definition HandleEvent `{UnicodeTables} (w : World) (api : Client) (data : InnerEventData)
  : handlers.G unit :=
  fun commandRegistry =>
    match data with
    | MessageEventData e =>
        handlers.HandleMessageEvent w api e commandRegistry
    | OtherInnerEventData => ret (tt, commandRegistry)
    end.

End events.

Module slack.

(** [socketmode.EventType], told apart as the loop does. *)
Inductive EventType : Type :=
| EventTypeEventsAPI
| EventTypeOther (name : string).

(** [evt.Data]: a [slackevents.EventsAPIEvent], by its inner event, or a
    value of any other type. *)
Inductive EventData : Type :=
| EventsAPIEventData (inner : events.InnerEventData)
| OtherEventData.

(** [socketmode.Event]; [Request] is a pointer, nil is [None], and a request
    is told by its envelope id. *)
Record Event : Type := {
  Type_ : EventType;
  Data : EventData;
  Request : option string
}.

(** An event received from [s.client.Events], with what surrounds its
    handling. *)
Record Arrival : Type := {
  arrival_world : World;
  arrival_api : Client;
  arrival_event : Event
}.

(** What the loop does: it acknowledges a request, and the handlers post
    and log. *)
Inductive LoopEffect : Type :=
| Ack (request : string)
| Handling (e : Effect).

(** The loop of the goroutine of [Slack.Run] over the events received.
    [*evt.Request] on a nil pointer panics. *)
Fixpoint Run `{UnicodeTables} (arrivals : list Arrival)
    (commandRegistry : gmap string handlers.Command)
  : list LoopEffect * option (gmap string handlers.Command) :=
  match arrivals with
  | [] => ([], Some commandRegistry)
  | a :: rest =>
      let evt := arrival_event a in
      match Type_ evt with
      | EventTypeEventsAPI =>
          match Request evt with
          | None => ([], None)
          | Some request =>
              match Data evt with
              | OtherEventData =>
                  let '(t, r) := Run rest commandRegistry in
                  (Ack request :: t, r)
              | EventsAPIEventData inner =>
                  match events.HandleEvent (arrival_world a) (arrival_api a)
                          inner commandRegistry with
                  | (t, Some (_, commandRegistry')) =>
                      let '(t', r) := Run rest commandRegistry' in
                      (Ack request :: map Handling t ++ t', r)
                  | (t, None) => (Ack request :: map Handling t, None)
                  end
              end
          end
      | EventTypeOther _ => Run rest commandRegistry
      end
  end.

End slack.

(** The effects of the handlers in a trace of the loop. *)
Fixpoint handled (t : list slack.LoopEffect) : list Effect :=
  match t with
  | [] => []
  | slack.Ack _ :: t' => handled t'
  | slack.Handling e :: t' => e :: handled t'
  end.

(** The requests acknowledged in a trace of the loop. *)
Fixpoint acked (t : list slack.LoopEffect) : list string :=
  match t with
  | [] => []
  | slack.Ack request :: t' => request :: acked t'
  | slack.Handling _ :: t' => acked t'
  end.

(** The message events among the arrivals, as the deliveries of [Run]. *)
Fixpoint deliveries_of (arrivals : list slack.Arrival) : list Delivery :=
  match arrivals with
  | [] => []
  | a :: rest =>
      match slack.Type_ (slack.arrival_event a),
            slack.Data (slack.arrival_event a) with
      | slack.EventTypeEventsAPI,
        slack.EventsAPIEventData (events.MessageEventData e) =>
          {| world := slack.arrival_world a;
             api := slack.arrival_api a;
             event := e |} :: deliveries_of rest
      | _, _ => deliveries_of rest
      end
  end.

(** The requests of the events of type [events_api] among the arrivals. *)
Fixpoint requests_of (arrivals : list slack.Arrival) : list string :=
  match arrivals with
  | [] => []
  | a :: rest =>
      match slack.Type_ (slack.arrival_event a),
            slack.Request (slack.arrival_event a) with
      | slack.EventTypeEventsAPI, Some request => request :: requests_of rest
      | _, _ => requests_of rest
      end
  end.

(** Every event of type [events_api] comes with its request. *)
Definition requestsPresent (arrivals : list slack.Arrival) : Prop :=
  Forall (fun a =>
            slack.Type_ (slack.arrival_event a) = slack.EventTypeEventsAPI ->
            slack.Request (slack.arrival_event a) <> None) arrivals.

(** An ASCII white-space byte occurs in [s]. *)
Fixpoint hasAsciiSpace (s : string) : bool :=
  match s with
  | EmptyString => false
  | String c s' => asciiSpace c || hasAsciiSpace s'
  end.

(** ** Notions used in the statements *)

(** The messages a computation posts. *)
Definition replies {A} (m : W A) : list (string * string) := posts (trace m).

(** What a builder holds after the pieces were written to it in order. *)
Fixpoint concatAll (pieces : list string) : string :=
  match pieces with
  | [] => EmptyString
  | p :: rest => p +:+ concatAll rest
  end.

(** The three entries of the size catalog. *)
Definition mediumSpec : SizeSpec := {| CPU := "8 CPUs"; RAM := "32 GB RAM" |}.
Definition largeSpec : SizeSpec := {| CPU := "16 CPUs"; RAM := "64 GB RAM" |}.
Definition xlargeSpec : SizeSpec := {| CPU := "32 CPUs"; RAM := "128 GB RAM" |}.






(** What the proof that trimming does not change the fields carries along
    the text: the three ways [TrimSpaceFrom] is entered at the start of a
    rune, with [pending] white space, without, and before the first field. *)
Definition trimmedFields_ok (s : string) : Prop :=
  (forall cur pending : string,
     pending <> "" ->
     (forall x cur', FieldsFrom 0 cur' (pending +:+ x) =
                     flushField cur' ++ FieldsFrom 0 "" x) ->
     FieldsFrom 0 cur (TrimSpaceFrom true 0 pending s) =
       flushField cur ++ FieldsFrom 0 "" s)
  /\ (forall cur : string,
        FieldsFrom 0 cur (TrimSpaceFrom true 0 "" s) = FieldsFrom 0 cur s)
  /\ (forall pending : string,
        FieldsFrom 0 "" (TrimSpaceFrom false 0 pending s) =
          FieldsFrom 0 "" s).

(** ** Sample inputs *)

(** Stand-in tables for the sample inputs, which are ASCII and never reach
    them. *)
Definition sampleTables : UnicodeTables := fun s => s.

(** A Slack client whose posts succeed. *)
Definition quietApi : Client := {| PostMessage_err := fun _ _ => None |}.

Definition emptyCrClient : CrClientT :=
  {| List_KindList := Ok []; List_OpenshiftList := Ok []; List_nil := None |}.

(** A world where the client is constructed and the control plane answers
    with the lists of [crClient]. *)
Definition worldWith (crClient : CrClientT) (seed : list nat) : World :=
  {| config_GetConfig := None;
     kubernetes_NewForConfig := None;
     dynamic_NewForConfig := None;
     crclient_New := Ok crClient;
     range_seed := seed |}.

(** A world where [config.GetConfig] finds no configuration. *)
Definition noConfigWorld : World :=
  {| config_GetConfig := Some "could not locate a kubeconfig";
     kubernetes_NewForConfig := None;
     dynamic_NewForConfig := None;
     crclient_New := Ok emptyCrClient;
     range_seed := [] |}.

(** A message of user [U1] in channel [C1]. *)
Definition messageOf (text : string) : MessageEvent :=
  {| BotID := ""; Text := text; User := "U1"; Channel := "C1" |}.

Definition sampleTime : Time :=
  {| Year := 2024; Month := 3; Day := 7; Hour := 9; Minute := 5;
     Second := 0 |}.

Definition sampleKinds : list Kind :=
  [ {| Name := "dev"; Namespace := "team-a"; CreationTimestamp := sampleTime |};
    {| Name := "ci"; Namespace := "team-b"; CreationTimestamp := sampleTime |} ].

Definition sampleOpenshifts : list Unstructured :=
  [ {| GetName := "ocp"; GetNamespace := "team-c";
       GetCreationTimestamp := sampleTime |} ].

Definition sampleCrClient : CrClientT :=
  {| List_KindList := Ok sampleKinds;
     List_OpenshiftList := Ok sampleOpenshifts;
     List_nil := None |}.

Definition sampleArrivals : list slack.Arrival :=
  [ {| slack.arrival_world := worldWith sampleCrClient [];
       slack.arrival_api := quietApi;
       slack.arrival_event :=
         {| slack.Type_ := slack.EventTypeOther "hello";
            slack.Data := slack.OtherEventData;
            slack.Request := None |} |};
    {| slack.arrival_world := worldWith sampleCrClient [];
       slack.arrival_api := quietApi;
       slack.arrival_event :=
         {| slack.Type_ := slack.EventTypeEventsAPI;
            slack.Data :=
              slack.EventsAPIEventData events.OtherInnerEventData;
            slack.Request := Some "env-1" |} |};
    {| slack.arrival_world := worldWith sampleCrClient [];
       slack.arrival_api := quietApi;
       slack.arrival_event :=
         {| slack.Type_ := slack.EventTypeEventsAPI;
            slack.Data :=
              slack.EventsAPIEventData
                (events.MessageEventData (messageOf "list"));
            slack.Request := Some "env-2" |} |} ].

(** * Properties *)

Section Properties.

Context `{U : UnicodeTables}.

(** ** The catalog *)

Lemma isSupportedClusterType_true (t : string) :
  isSupportedClusterType t = true <-> t = "k8s" \/ t = "openshift".
Proof.
  unfold isSupportedClusterType, supportedClusterTypes. simpl.
  destruct (decide (t = "k8s")) as [->|Hk]; [by intuition|].
  rewrite lookup_insert_ne by done.
  destruct (decide (t = "openshift")) as [->|Ho]; [by intuition|].
  rewrite lookup_insert_ne by done. rewrite lookup_empty.
  split; [done | by intros [?|?]].
Qed.

Lemma isSupportedClusterType_false (t : string) :
  isSupportedClusterType t = false <-> t <> "k8s" /\ t <> "openshift".
Proof.
  pose proof (isSupportedClusterType_true t) as H.
  destruct (isSupportedClusterType t); split; intros; try done.
  - assert (true = true) as E by done. apply H in E. tauto.
  - split; intros ->; by destruct H as [_ H]; discriminate H; auto.
Qed.

Lemma supportedSizes_lookup (size : string) :
  supportedSizes !! size =
    if decide (size = "medium") then Some mediumSpec
    else if decide (size = "large") then Some largeSpec
    else if decide (size = "xlarge") then Some xlargeSpec
    else None.
Proof.
  unfold supportedSizes. simpl.
  repeat (case_decide; [subst; by vm_compute | rewrite lookup_insert_ne by done]).
  apply lookup_empty.
Qed.

Lemma supportedSizes_None (size : string) :
  supportedSizes !! size = None <->
  size <> "medium" /\ size <> "large" /\ size <> "xlarge".
Proof.
  rewrite supportedSizes_lookup.
  repeat case_decide; subst; split; try done; intros (? & ? & ?); done.
Qed.

(** ** Strings *)

Lemma append_nil_l (s : string) : "" +:+ s = s.
Proof. reflexivity. Qed.

Lemma append_cons (a : ascii) (s t : string) :
  String a s +:+ t = String a (s +:+ t).
Proof. reflexivity. Qed.

Lemma append_nil_r (s : string) : s +:+ "" = s.
Proof.
  induction s as [|a s IH]; [done | by rewrite append_cons, IH].
Qed.

Lemma append_assoc (s t u : string) : (s +:+ t) +:+ u = s +:+ t +:+ u.
Proof.
  induction s as [|a s IH]; [done | by rewrite !append_cons, IH].
Qed.

Lemma prefix_nil (s : string) : String.prefix "" s = true.
Proof. by destruct s. Qed.

Lemma prefix_app (s t : string) : String.prefix s (s +:+ t) = true.
Proof.
  induction s as [|a s IH]; [apply prefix_nil|].
  rewrite append_cons. simpl. by destruct (ascii_dec a a).
Qed.

Lemma Contains_cons (a : ascii) (s sub : string) :
  Contains (String a s) sub =
  String.prefix sub (String a s) || Contains s sub.
Proof. reflexivity. Qed.

Lemma Contains_prefix (s sub : string) :
  String.prefix sub s = true -> Contains s sub = true.
Proof.
  intros H. destruct s; [by destruct sub | by rewrite Contains_cons, H].
Qed.

Lemma Contains_head (s t : string) : Contains (s +:+ t) s = true.
Proof. apply Contains_prefix, prefix_app. Qed.

Lemma Contains_refl (s : string) : Contains s s = true.
Proof. rewrite <- (append_nil_r s) at 1. apply Contains_head. Qed.

Lemma Contains_app_r (s t sub : string) :
  Contains t sub = true -> Contains (s +:+ t) sub = true.
Proof.
  intros H. induction s as [|a s IH]; [done|].
  rewrite append_cons, Contains_cons, IH. apply orb_true_r.
Qed.

Lemma fold_left_append {A} (f : A -> string) (l : list A) (b : string) :
  fold_left (fun b x => b +:+ f x) l b = b +:+ concatAll (map f l).
Proof.
  revert b. induction l as [|x l IH]; intros b; simpl.
  - by rewrite append_nil_r.
  - by rewrite IH, append_assoc.
Qed.

Lemma Contains_concatAll (pieces : list string) (p : string) :
  In p pieces -> Contains (concatAll pieces) p = true.
Proof.
  induction pieces as [|q pieces IH]; simpl; [done|].
  intros [->|H]; [apply Contains_head | by apply Contains_app_r, IH].
Qed.

(** ** Ranging over a map *)

Lemma insert_at_Permutation {A} (i : nat) (x : A) (l : list A) :
  Permutation (insert_at i x l) (x :: l).
Proof.
  revert i. induction l as [|y l IH]; intros [|i]; simpl; try done.
  rewrite IH. apply perm_swap.
Qed.

Lemma shuffle_Permutation {A} (seed : list nat) (l : list A) :
  Permutation (shuffle seed l) l.
Proof.
  revert seed. induction l as [|x l IH]; intros seed; simpl; [done|].
  rewrite insert_at_Permutation. by constructor.
Qed.

Lemma range_map_Permutation {V} (seed : list nat) (m : gmap string V) :
  Permutation (range_map seed m) (map_to_list m).
Proof. apply shuffle_Permutation. Qed.

(** ** The launch handler *)

Lemma respondError_replies (api : Client) (channel text : string) :
  replies (respondError api channel text) = [(channel, text)]
  /\ result (respondError api channel text) = Some tt.
Proof.
  unfold replies, respondError.
  destruct (PostMessage_err api channel text); done.
Qed.

Lemma formatSupportedSizes_concat (seed : list nat) :
  formatSupportedSizes seed =
  concatAll (map sizeLine (range_map seed supportedSizes)).
Proof. unfold formatSupportedSizes. by rewrite fold_left_append. Qed.

Lemma range_map_In {V} (seed : list nat) (m : gmap string V) (k : string)
    (v : V) :
  m !! k = Some v -> In (k, v) (range_map seed m).
Proof.
  intros H.
  apply (Permutation_in _ (Permutation_sym (range_map_Permutation seed m))).
  apply list_elem_of_In. by apply elem_of_map_to_list.
Qed.

Lemma formatSupportedSizes_lists (seed : list nat) (name : string)
    (spec : SizeSpec) :
  supportedSizes !! name = Some spec ->
  Contains (formatSupportedSizes seed) (sizeLine (name, spec)) = true.
Proof.
  intros H. rewrite formatSupportedSizes_concat.
  pose proof (range_map_In seed supportedSizes name spec H) as Hin.
  generalize dependent (range_map seed supportedSizes). intros l Hin.
  apply Contains_concatAll. exact (in_map sizeLine l (name, spec) Hin).
Qed.

Lemma launchValidated_unsupported w api event arg0 arg1 :
  ToLower arg0 <> "k8s" -> ToLower arg0 <> "openshift" ->
  launchValidated w api event arg0 arg1 =
  respondError api (Channel event) (unsupportedTypeText (ToLower arg0)).
Proof.
  intros H1 H2. unfold launchValidated.
  by rewrite (proj2 (isSupportedClusterType_false _) (conj H1 H2)).
Qed.

Lemma launchValidated_invalid_size w api event arg0 arg1 :
  ToLower arg0 = "k8s" \/ ToLower arg0 = "openshift" ->
  supportedSizes !! ToLower arg1 = None ->
  launchValidated w api event arg0 arg1 =
  respondError api (Channel event)
    (invalidSizeText (ToLower arg1) (formatSupportedSizes (range_seed w))).
Proof.
  intros H1 H2. unfold launchValidated.
  by rewrite (proj2 (isSupportedClusterType_true _) H1), H2.
Qed.

Lemma launchValidated_ok w api event arg0 arg1 spec :
  ToLower arg0 = "k8s" \/ ToLower arg0 = "openshift" ->
  supportedSizes !! ToLower arg1 = Some spec ->
  replies (launchValidated w api event arg0 arg1) =
    [(Channel event,
      launchText (ToLower arg0) (ToLower arg1) (User event) spec)]
  /\ result (launchValidated w api event arg0 arg1) = Some tt.
Proof.
  intros H1 H2. unfold launchValidated, replies.
  rewrite (proj2 (isSupportedClusterType_true _) H1), H2. simpl.
  by destruct (PostMessage_err api _ _).
Qed.

Lemma HandleLaunch_short w api event (args : list string) :
  length args < 2 ->
  launch_go.HandleLaunch w api event args =
  respondError api (Channel event) missingArgumentsText.
Proof.
  intros H. unfold launch_go.HandleLaunch.
  by rewrite (proj2 (Nat.ltb_lt _ _) H).
Qed.

Lemma HandleLaunch_two w api event arg0 arg1 (rest : list string) :
  launch_go.HandleLaunch w api event (arg0 :: arg1 :: rest) =
  launchValidated w api event arg0 arg1.
Proof. reflexivity. Qed.

(** With a client constructed, the version with the control-plane call
    replies as the version without it. *)
Lemma commands_HandleLaunch_with_client w api event (args : list string) client :
  GetKubernetesClient w = (Some client, None) ->
  replies (commands.HandleLaunch w api event args) =
    replies (launch_go.HandleLaunch w api event args)
  /\ result (commands.HandleLaunch w api event args) =
     result (launch_go.HandleLaunch w api event args).
Proof.
  intros H. unfold commands.HandleLaunch, launch_go.HandleLaunch.
  destruct (length args <? 2); [done|]. rewrite H.
  unfold replies, bind, emit. simpl.
  by destruct (launchValidated w api event _ _) as [t [[]|]].
Qed.

Lemma supportedSizes_entries :
  map_to_list supportedSizes =
  [("medium", mediumSpec); ("large", largeSpec); ("xlarge", xlargeSpec)].
Proof. vm_compute. reflexivity. Qed.

(** The lines of [formatSupportedSizes], spelled out: the three catalog
    lines, each once, in the order of the map loop. *)
Lemma formatSupportedSizes_lines (seed : list nat) :
  exists l1 l2 l3 : string,
    Permutation [l1; l2; l3]
      ["• `medium`: 8 CPUs, 32 GB RAM" +:+ LF;
       "• `large`: 16 CPUs, 64 GB RAM" +:+ LF;
       "• `xlarge`: 32 CPUs, 128 GB RAM" +:+ LF]
    /\ formatSupportedSizes seed = l1 +:+ l2 +:+ l3.
Proof.
  rewrite formatSupportedSizes_concat.
  pose proof (range_map_Permutation seed supportedSizes) as Hperm.
  rewrite supportedSizes_entries in Hperm.
  generalize dependent (range_map seed supportedSizes). intros l Hperm.
  pose proof (Permutation_length Hperm) as Hlen.
  destruct l as [|e1 [|e2 [|e3 [|e4 l]]]]; try discriminate Hlen.
  exists (sizeLine e1), (sizeLine e2), (sizeLine e3). split.
  - exact (Permutation_map sizeLine Hperm).
  - simpl. by rewrite append_nil_r.
Qed.

(** [HandleLaunch] of [launch.go] checks in a fixed order and replies with
    the first failure only. With fewer than two arguments the reply is the
    missing-arguments text followed by the whole usage block. Otherwise,
    when [args[0]] lower-cased is neither [k8s] nor [openshift], the reply
    names that value, whatever [args[1]] is. Otherwise, when [args[1]]
    lower-cased is none of the catalog sizes, the reply names that value and
    lists the three sizes with their CPU and RAM, one line each. In each
    case exactly one message is posted and the handler returns. The version
    of the handler with the control-plane call replies the same whenever its
    client is constructed. *)
Theorem HandleLaunch_validation_order (w : World) (api : Client)
    (event : MessageEvent) :
  (forall args : list string,
     length args < 2 ->
     replies (launch_go.HandleLaunch w api event args) =
       [(Channel event,
         "❌ Missing arguments." +:+ LF +:+ LF +:+ launchUsage)]
     /\ result (launch_go.HandleLaunch w api event args) = Some tt)
  /\ (forall (arg0 arg1 : string) (rest : list string),
        ToLower arg0 <> "k8s" -> ToLower arg0 <> "openshift" ->
        replies (launch_go.HandleLaunch w api event (arg0 :: arg1 :: rest)) =
          [(Channel event,
            "❌ Unsupported cluster type: *" +:+ ToLower arg0 +:+ "*" +:+
            LF +:+ "Supported types: `k8s`, `openshift`")]
        /\ result (launch_go.HandleLaunch w api event (arg0 :: arg1 :: rest))
           = Some tt)
  /\ (forall (arg0 arg1 : string) (rest : list string),
        ToLower arg0 = "k8s" \/ ToLower arg0 = "openshift" ->
        ToLower arg1 <> "medium" -> ToLower arg1 <> "large" ->
        ToLower arg1 <> "xlarge" ->
        exists l1 l2 l3 : string,
          Permutation [l1; l2; l3]
            ["• `medium`: 8 CPUs, 32 GB RAM" +:+ LF;
             "• `large`: 16 CPUs, 64 GB RAM" +:+ LF;
             "• `xlarge`: 32 CPUs, 128 GB RAM" +:+ LF]
          /\ replies (launch_go.HandleLaunch w api event
                        (arg0 :: arg1 :: rest)) =
             [(Channel event,
               "❌ Invalid size: *" +:+ ToLower arg1 +:+ "*" +:+ LF +:+
               "Valid sizes:" +:+ LF +:+ l1 +:+ l2 +:+ l3)]
          /\ result (launch_go.HandleLaunch w api event
                       (arg0 :: arg1 :: rest)) = Some tt)
  /\ (forall (client : KubernetesClients) (args : list string),
        GetKubernetesClient w = (Some client, None) ->
        replies (commands.HandleLaunch w api event args) =
          replies (launch_go.HandleLaunch w api event args)
        /\ result (commands.HandleLaunch w api event args) =
           result (launch_go.HandleLaunch w api event args)).
Proof.
  split; [|split; [|split]].
  - intros args Hlen. rewrite HandleLaunch_short by done.
    apply respondError_replies.
  - intros arg0 arg1 rest H1 H2.
    rewrite HandleLaunch_two, launchValidated_unsupported by done.
    apply respondError_replies.
  - intros arg0 arg1 rest Ht Hm Hl Hx.
    assert (supportedSizes !! ToLower arg1 = None) as Hnone
      by (by apply supportedSizes_None).
    rewrite HandleLaunch_two, launchValidated_invalid_size by done.
    destruct (formatSupportedSizes_lines (range_seed w))
      as (l1 & l2 & l3 & Hperm & ->).
    exists l1, l2, l3. split; [exact Hperm|].
    apply respondError_replies.
  - intros client args. apply commands_HandleLaunch_with_client.
Qed.

(** C2. The claim holds of [HandleLaunch] of [launch.go] and fails on the
    version with the control-plane call: at [launch badtype medium] when no
    configuration is found, that version logs the error, dereferences the
    nil client and panics before it looks at the cluster type, so nothing is
    posted; [HandleLaunch] of [launch.go] posts the error that names
    [badtype]. *)
Theorem commands_HandleLaunch_bad_type_without_client :
  commands.HandleLaunch noConfigWorld quietApi
    (messageOf "launch badtype medium") ["badtype"; "medium"] =
    ([LogPrintf
        "Error getting kubernetes clinet: could not locate a kubeconfig"],
     None)
  /\ replies (launch_go.HandleLaunch noConfigWorld quietApi
               (messageOf "launch badtype medium") ["badtype"; "medium"]) =
     [("C1",
       "❌ Unsupported cluster type: *badtype*" +:+ LF +:+
       "Supported types: `k8s`, `openshift`")].
Proof. split; reflexivity. Qed.

(** C3. When the first two arguments lower-case to a supported cluster type
    and to a size of the catalog, [HandleLaunch] posts exactly one message,
    the confirmation, which contains the lower-cased type, the lower-cased
    size, the mention of the sender and the CPU and RAM labels of the
    catalog entry (["16 CPUs"] and ["64 GB RAM"] for [large]); arguments
    after the second change nothing. *)
Theorem HandleLaunch_confirmation (w : World) (api : Client)
    (event : MessageEvent) (arg0 arg1 : string) (rest : list string)
    (spec : SizeSpec) :
  ToLower arg0 = "k8s" \/ ToLower arg0 = "openshift" ->
  supportedSizes !! ToLower arg1 = Some spec ->
  let text := launchText (ToLower arg0) (ToLower arg1) (User event) spec in
  replies (launch_go.HandleLaunch w api event (arg0 :: arg1 :: rest)) =
    [(Channel event, text)]
  /\ result (launch_go.HandleLaunch w api event (arg0 :: arg1 :: rest)) =
     Some tt
  /\ Contains text (ToLower arg0) = true
  /\ Contains text (ToLower arg1) = true
  /\ Contains text ("<@" +:+ User event +:+ ">") = true
  /\ Contains text (CPU spec) = true
  /\ Contains text (RAM spec) = true
  /\ (ToLower arg1 = "large" ->
      CPU spec = "16 CPUs" /\ RAM spec = "64 GB RAM")
  /\ launch_go.HandleLaunch w api event (arg0 :: arg1 :: rest) =
     launch_go.HandleLaunch w api event [arg0; arg1].
Proof.
  intros Ht Hs text. subst text.
  rewrite !HandleLaunch_two.
  destruct (launchValidated_ok w api event arg0 arg1 spec Ht Hs) as [-> ->].
  unfold launchText. repeat apply conj; try reflexivity.
  - apply Contains_app_r, Contains_head.
  - do 3 apply Contains_app_r. apply Contains_head.
  - do 4 apply Contains_app_r.
    change ("* for <@" +:+ User event +:+ ">" +:+ LF +:+ "• CPU: " +:+
            CPU spec +:+ LF +:+ "• Memory: " +:+ RAM spec)
      with ("* for " +:+ "<@" +:+ User event +:+ ">" +:+ LF +:+ "• CPU: " +:+
            CPU spec +:+ LF +:+ "• Memory: " +:+ RAM spec).
    apply Contains_app_r.
    rewrite <- (append_assoc (User event) ">"), <- (append_assoc "<@").
    apply Contains_head.
  - do 9 apply Contains_app_r. apply Contains_head.
  - do 12 apply Contains_app_r. apply Contains_refl.
  - intros Hl. rewrite Hl in Hs. by injection Hs as <-.
Qed.

(** C6. The version of [HandleLaunch] with the control-plane call, at
    [launch k8s large] when no configuration is found: it logs the error,
    dereferences the nil client and panics, so nothing is posted; the
    version without the call posts the confirmation. *)
Theorem commands_HandleLaunch_without_client :
  commands.HandleLaunch noConfigWorld quietApi
    (messageOf "launch k8s large") ["k8s"; "large"] =
    ([LogPrintf
        "Error getting kubernetes clinet: could not locate a kubeconfig"],
     None)
  /\ replies (launch_go.HandleLaunch noConfigWorld quietApi
               (messageOf "launch k8s large") ["k8s"; "large"]) =
     [("C1", launchText "k8s" "large" "U1" largeSpec)].
Proof. split; reflexivity. Qed.

(** ** The order of the size lines *)

(** C7, amended. The size-error reply of [HandleLaunch] has one line for
    each size of the catalog, with its CPU and RAM, each exactly once, in
    the order the map loop of that call takes; two calls on the same input
    give replies whose size lines are the same up to their order. The
    version with the control-plane call, when its client is constructed,
    posts the same reply. *)
Theorem size_error_lists_catalog_in_loop_order (w1 w2 : World) (api : Client)
    (event : MessageEvent) (arg0 arg1 : string) (rest : list string) :
  ToLower arg0 = "k8s" \/ ToLower arg0 = "openshift" ->
  ToLower arg1 <> "medium" -> ToLower arg1 <> "large" ->
  ToLower arg1 <> "xlarge" ->
  let catalogLines :=
    ["• `medium`: 8 CPUs, 32 GB RAM" +:+ LF;
     "• `large`: 16 CPUs, 64 GB RAM" +:+ LF;
     "• `xlarge`: 32 CPUs, 128 GB RAM" +:+ LF] in
  (exists a1 a2 a3 b1 b2 b3 : string,
     Permutation [a1; a2; a3] catalogLines
     /\ Permutation [b1; b2; b3] catalogLines
     /\ replies (launch_go.HandleLaunch w1 api event (arg0 :: arg1 :: rest)) =
        [(Channel event,
          "❌ Invalid size: *" +:+ ToLower arg1 +:+ "*" +:+ LF +:+
          "Valid sizes:" +:+ LF +:+ a1 +:+ a2 +:+ a3)]
     /\ replies (launch_go.HandleLaunch w2 api event (arg0 :: arg1 :: rest)) =
        [(Channel event,
          "❌ Invalid size: *" +:+ ToLower arg1 +:+ "*" +:+ LF +:+
          "Valid sizes:" +:+ LF +:+ b1 +:+ b2 +:+ b3)])
  /\ (forall client : KubernetesClients,
        GetKubernetesClient w1 = (Some client, None) ->
        replies (commands.HandleLaunch w1 api event (arg0 :: arg1 :: rest)) =
        replies (launch_go.HandleLaunch w1 api event (arg0 :: arg1 :: rest))).
Proof.
  intros Ht Hm Hl Hx catalogLines.
  assert (supportedSizes !! ToLower arg1 = None) as Hnone
    by (by apply supportedSizes_None).
  split.
  - rewrite !HandleLaunch_two, !launchValidated_invalid_size by done.
    destruct (formatSupportedSizes_lines (range_seed w1))
      as (a1 & a2 & a3 & Ha & ->).
    destruct (formatSupportedSizes_lines (range_seed w2))
      as (b1 & b2 & b3 & Hb & ->).
    exists a1, a2, a3, b1, b2, b3.
    repeat apply conj; [exact Ha | exact Hb | |];
      apply respondError_replies.
  - intros client Hc.
    apply (commands_HandleLaunch_with_client w1 api event _ client Hc).
Qed.

(** ** The registry and the dispatcher *)

Lemma commandRegistry_lookup (K : string) :
  handlers.commandRegistry !! K =
    if decide (K = "help") then Some handlers.helpCommand
    else if decide (K = "launch") then Some handlers.launchCommand
    else if decide (K = "list") then Some handlers.listCommand
    else None.
Proof.
  unfold handlers.commandRegistry, handlers.init,
    handlers.commandRegistry_literal. simpl.
  case_decide; [subst; by rewrite lookup_insert_eq|].
  rewrite lookup_insert_ne by done.
  case_decide; [subst; by rewrite lookup_insert_eq|].
  rewrite lookup_insert_ne by done.
  case_decide; [subst; by rewrite lookup_insert_eq|].
  rewrite lookup_insert_ne by done. apply lookup_empty.
Qed.

Lemma commandRegistry_keys (K : string) :
  is_Some (handlers.commandRegistry !! K) <->
  K = "launch" \/ K = "list" \/ K = "help".
Proof.
  rewrite commandRegistry_lookup.
  repeat case_decide; subst; split; intros Hk; eauto;
    try (by destruct Hk as [? [=]]); destruct Hk as [|[|]]; done.
Qed.

Lemma commandRegistry_lowercase (K : string) :
  is_Some (handlers.commandRegistry !! K) -> ToLower K = K.
Proof.
  intros [->|[->| ->]]%commandRegistry_keys; reflexivity.
Qed.

Lemma HandleMessageEvent_fields (w : World) (api : Client)
    (event : MessageEvent) (reg : gmap string handlers.Command) (t : string)
    (rest : list string) :
  BotID event = "" ->
  Fields (TrimSpace (Text event)) = t :: rest ->
  handlers.HandleMessageEvent w api event reg =
    match reg !! ToLower t with
    | None =>
        emit (LogPrintf ("Unknown command '" +:+ ToLower t +:+
                         "' from user " +:+ User event +:+ " in channel " +:+
                         Channel event +:+ ". Showing help.")) ;;;
        handlers.handleHelp w api event [] reg
    | Some command =>
        emit (LogPrintf ("Received '" +:+ ToLower t +:+
                         "' command from user " +:+ User event +:+
                         " in channel " +:+ Channel event)) ;;;
        handlers.call (handlers.Handler command) w api event rest reg
    end.
Proof.
  intros Hbot Hf. unfold handlers.HandleMessageEvent.
  rewrite Hbot, Hf. reflexivity.
Qed.

(** C1. For a message that is not from a bot, [HandleMessageEvent] goes by
    the first field lower-cased. When it is [launch], [list] or [help], the
    three registered keywords, so for each of them in any letter case, it
    logs the command and runs the handler registered under it,
    [HandleLaunch], [HandleList] or [handleHelp], with the remaining fields,
    unchanged and in order, as arguments. When it is none of them, it logs
    the unknown command and runs [handleHelp], which posts the help
    listing. *)
Theorem HandleMessageEvent_routes (w : World) (api : Client)
    (event : MessageEvent) (t : string) (rest : list string) :
  BotID event = "" ->
  Fields (TrimSpace (Text event)) = t :: rest ->
  (forall K : string,
     is_Some (handlers.commandRegistry !! K) <->
     K = "launch" \/ K = "list" \/ K = "help")
  /\ (forall K : string,
        is_Some (handlers.commandRegistry !! K) -> ToLower K = K)
  /\ (ToLower t = "launch" ->
      handlers.HandleMessageEvent w api event handlers.commandRegistry =
        (emit (LogPrintf ("Received 'launch' command from user " +:+
                          User event +:+ " in channel " +:+
                          Channel event)) ;;;
         commands.HandleLaunch w api event rest ;;;
         ret (tt, handlers.commandRegistry)))
  /\ (ToLower t = "list" ->
      handlers.HandleMessageEvent w api event handlers.commandRegistry =
        (emit (LogPrintf ("Received 'list' command from user " +:+
                          User event +:+ " in channel " +:+
                          Channel event)) ;;;
         commands.HandleList w api event rest ;;;
         ret (tt, handlers.commandRegistry)))
  /\ (ToLower t = "help" ->
      handlers.HandleMessageEvent w api event handlers.commandRegistry =
        (emit (LogPrintf ("Received 'help' command from user " +:+
                          User event +:+ " in channel " +:+
                          Channel event)) ;;;
         handlers.handleHelp w api event rest handlers.commandRegistry)
      /\ handlers.handleHelp w api event rest handlers.commandRegistry =
         ([PostMessage (Channel event)
             (handlers.helpText (range_seed w) handlers.commandRegistry)],
          Some (tt, handlers.commandRegistry)))
  /\ (ToLower t <> "launch" -> ToLower t <> "list" -> ToLower t <> "help" ->
      handlers.HandleMessageEvent w api event handlers.commandRegistry =
        ([LogPrintf ("Unknown command '" +:+ ToLower t +:+ "' from user " +:+
                     User event +:+ " in channel " +:+ Channel event +:+
                     ". Showing help.");
          PostMessage (Channel event)
            (handlers.helpText (range_seed w) handlers.commandRegistry)],
         Some (tt, handlers.commandRegistry))).
Proof.
  intros Hbot Hf.
  pose proof (HandleMessageEvent_fields w api event handlers.commandRegistry
                t rest Hbot Hf) as H.
  repeat apply conj.
  - apply commandRegistry_keys.
  - apply commandRegistry_lowercase.
  - intros Ht. rewrite H, Ht. reflexivity.
  - intros Ht. rewrite H, Ht. reflexivity.
  - intros Ht. split; [rewrite H, Ht|]; reflexivity.
  - intros H1 H2 H3. rewrite H, commandRegistry_lookup.
    repeat (case_decide; [done|]). reflexivity.
Qed.

(** C8. A message from a bot, and a message whose text has no field (empty
    or white space only), are dropped: [HandleMessageEvent] returns with an
    empty trace, so no handler ran and nothing was posted, and the registry
    is as before. *)
Theorem HandleMessageEvent_silent (w : World) (api : Client)
    (event : MessageEvent) (reg : gmap string handlers.Command) :
  BotID event <> "" \/ Fields (TrimSpace (Text event)) = [] ->
  handlers.HandleMessageEvent w api event reg = ([], Some (tt, reg)).
Proof.
  intros [Hbot|Hf]; unfold handlers.HandleMessageEvent.
  - destruct (String.eqb_spec (BotID event) ""); done.
  - destruct (negb _); [done|]. by rewrite Hf.
Qed.

(** C9, amended. Every keyword of the registry is lowercase already, so
    lower-casing the first field before the lookup is enough to match a
    keyword in any letter case. Start-up does not check this: whatever the
    registry literal, with both tokens set it ends with the bot running on
    the literal plus [help]. *)
Theorem registered_keywords_lowercase :
  (forall K : string,
     is_Some (handlers.commandRegistry !! K) -> ToLower K = K)
  /\ (forall t K : string,
        is_Some (handlers.commandRegistry !! K) ->
        ToLower t = ToLower K ->
        handlers.commandRegistry !! ToLower t = handlers.commandRegistry !! K)
  /\ (forall (literal : gmap string handlers.Command)
             (botToken appToken : string),
        botToken <> "" -> appToken <> "" ->
        startup literal botToken appToken =
          Running (<["help" := handlers.helpCommand]> literal)).
Proof.
  split; [|split].
  - apply commandRegistry_lowercase.
  - intros t K HK Ht. by rewrite Ht, (commandRegistry_lowercase K HK).
  - intros literal botToken appToken Hb Ha. unfold startup, main.
    destruct (String.eqb_spec botToken ""); [done|].
    destruct (String.eqb_spec appToken ""); done.
Qed.

(** ** The registry over the life of the process *)

Lemma HandleMessageEvent_keeps_registry (w : World) (api : Client)
    (event : MessageEvent) (reg reg' : gmap string handlers.Command) :
  result (handlers.HandleMessageEvent w api event reg) = Some (tt, reg') ->
  reg' = reg.
Proof.
  unfold handlers.HandleMessageEvent.
  destruct (negb _); [by intros [= ->]|].
  destruct (length _ =? 0); [by intros [= ->]|].
  destruct (reg !! _) as [command|].
  - unfold handlers.call, handlers.handleHelp.
    destruct (handlers.Handler command); simpl.
    + destruct (commands.HandleLaunch _ _ _ _) as [t [[]|]]; simpl; [|done].
      by intros [= ->].
    + destruct (commands.HandleList _ _ _ _) as [t [[]|]]; simpl; [|done].
      by intros [= ->].
    + by intros [= ->].
  - unfold handlers.handleHelp. simpl. by intros [= ->].
Qed.

Lemma Run_keeps_registry (deliveries : list Delivery)
    (reg reg' : gmap string handlers.Command) :
  result (Run deliveries reg) = Some reg' -> reg' = reg.
Proof.
  revert reg. induction deliveries as [|d rest IH]; intros reg; simpl.
  - by intros [= ->].
  - destruct (handlers.HandleMessageEvent (world d) (api d) (event d) reg)
      as [t [[[] reg1]|]] eqn:E; simpl; [|done].
    assert (reg1 = reg) as ->.
    { apply (HandleMessageEvent_keeps_registry (world d) (api d) (event d)).
      by rewrite E. }
    destruct (Run rest reg) as [t' r] eqn:E'. simpl. intros ->.
    apply IH. by rewrite E'.
Qed.

Lemma commandRegistry_entries :
  map_to_list handlers.commandRegistry =
  [("list", handlers.listCommand); ("launch", handlers.launchCommand);
   ("help", handlers.helpCommand)].
Proof. vm_compute. reflexivity. Qed.

(** C10. When [main] starts the registry has exactly the keys [launch],
    [list] and [help], the literal having the first two and [init] adding
    [help]. Handling a message leaves the registry as it was, so after any
    sequence of messages the event loop still runs on the registry of
    start-up, and every help listing has one entry for each of the three
    commands. *)
Theorem commandRegistry_fixed :
  (forall K : string,
     is_Some (handlers.commandRegistry !! K) <->
     K = "launch" \/ K = "list" \/ K = "help")
  /\ handlers.commandRegistry_literal !! "help" = None
  /\ handlers.commandRegistry !! "help" = Some handlers.helpCommand
  /\ (forall (w : World) (api : Client) (event : MessageEvent)
             (reg reg' : gmap string handlers.Command),
        result (handlers.HandleMessageEvent w api event reg) =
          Some (tt, reg') ->
        reg' = reg)
  /\ (forall (deliveries : list Delivery)
             (reg' : gmap string handlers.Command),
        result (Run deliveries handlers.commandRegistry) = Some reg' ->
        reg' = handlers.commandRegistry)
  /\ (forall seed : list nat,
        exists order : list (string * handlers.Command),
          Permutation order
            [("launch", handlers.launchCommand);
             ("list", handlers.listCommand);
             ("help", handlers.helpCommand)]
          /\ handlers.helpText seed handlers.commandRegistry =
             ("📖 *Available commands:*" +:+ LF) +:+
             concatAll (map handlers.helpEntry order)).
Proof.
  repeat apply conj.
  - apply commandRegistry_keys.
  - reflexivity.
  - reflexivity.
  - apply HandleMessageEvent_keeps_registry.
  - intros deliveries reg'. apply Run_keeps_registry.
  - intros seed. exists (range_map seed handlers.commandRegistry). split.
    + rewrite range_map_Permutation, commandRegistry_entries.
      apply perm_swap.
    + unfold handlers.helpText. apply fold_left_append.
Qed.

(** ** The list handler *)

Lemma postList_replies (api : Client) (event : MessageEvent)
    (message : string) :
  replies (commands.postList api event message) = [(Channel event, message)]
  /\ result (commands.postList api event message) = Some tt.
Proof.
  unfold replies, commands.postList.
  destruct (PostMessage_err api (Channel event) message); done.
Qed.

Lemma replies_log_then {A} (line : string) (m : W A) :
  replies (emit (LogPrintf line) ;;; m) = replies m
  /\ result (emit (LogPrintf line) ;;; m) = result m.
Proof. destruct m as [t r]. done. Qed.








Lemma HandleList_with_lists (w : World) (api : Client) (event : MessageEvent)
    (args : list string) (client : KubernetesClients) (kinds : list Kind)
    (openshifts : list Unstructured) :
  GetKubernetesClient w = (Some client, None) ->
  List_KindList (CrClient client) = Ok kinds ->
  List_OpenshiftList (CrClient client) = Ok openshifts ->
  replies (commands.HandleList w api event args) =
    [(Channel event,
      if length kinds + length openshifts =? 0 then commands.emptyListText
      else commands.listText kinds openshifts)]
  /\ result (commands.HandleList w api event args) = Some tt.
Proof.
  intros Hc Hk Ho. unfold commands.HandleList. rewrite Hc, Hk, Ho.
  destruct (length kinds + length openshifts =? 0).
  - apply postList_replies.
  - destruct (replies_log_then
                ("Listed " +:+ fmt_d (length kinds + length openshifts) +:+
                 " MAPT clusters (" +:+ fmt_d (length kinds) +:+
                 " kinds, " +:+ fmt_d (length openshifts) +:+
                 " openshifts) for user " +:+ User event)
                (commands.postList api event
                   (commands.listText kinds openshifts))) as [-> ->].
    apply postList_replies.
Qed.


(** C5. When client construction fails, or the first query fails, or the
    second query fails after the first answered, [HandleList] posts exactly
    one message, an error text that shows no cluster, and returns. *)
Theorem HandleList_failure (w : World) (api : Client) (event : MessageEvent)
    (args : list string) :
  (forall e : string,
     (GetKubernetesClient w).2 = Some e ->
     replies (commands.HandleList w api event args) =
       [(Channel event, "❌ Failed to connect to Kubernetes cluster")]
     /\ result (commands.HandleList w api event args) = Some tt)
  /\ (forall (client : KubernetesClients) (e : string),
        GetKubernetesClient w = (Some client, None) ->
        List_KindList (CrClient client) = Err e ->
        replies (commands.HandleList w api event args) =
          [(Channel event, "❌ Failed to retrieve cluster list")]
        /\ result (commands.HandleList w api event args) = Some tt)
  /\ (forall (client : KubernetesClients) (kinds : list Kind) (e : string),
        GetKubernetesClient w = (Some client, None) ->
        List_KindList (CrClient client) = Ok kinds ->
        List_OpenshiftList (CrClient client) = Err e ->
        replies (commands.HandleList w api event args) =
          [(Channel event, "❌ Failed to retrieve cluster list")]
        /\ result (commands.HandleList w api event args) = Some tt).
Proof.
  repeat apply conj.
  - intros e He. unfold commands.HandleList.
    destruct (GetKubernetesClient w) as [client err]. simpl in He. subst err.
    destruct (replies_log_then ("Error getting kubernetes client: " +:+ e)
                (respondError api (Channel event)
                   "❌ Failed to connect to Kubernetes cluster")) as [-> ->].
    apply respondError_replies.
  - intros client e Hc Hk. unfold commands.HandleList. rewrite Hc, Hk.
    destruct (replies_log_then ("Error listing MAPT kind clusters: " +:+ e)
                (respondError api (Channel event)
                   "❌ Failed to retrieve cluster list")) as [-> ->].
    apply respondError_replies.
  - intros client kinds e Hc Hk Ho. unfold commands.HandleList.
    rewrite Hc, Hk, Ho.
    destruct (replies_log_then
                ("Error listing MAPT openshift clusters: " +:+ e)
                (respondError api (Channel event)
                   "❌ Failed to retrieve cluster list")) as [-> ->].
    apply respondError_replies.
Qed.

(** * Further properties of the code *)

(** ** Client construction *)

Lemma GetKubernetesClient_cases (w : World) :
  (exists client : KubernetesClients,
     GetKubernetesClient w = (Some client, None))
  \/ (exists e : string, GetKubernetesClient w = (None, Some e)).
Proof.
  unfold GetKubernetesClient.
  destruct (config_GetConfig w); [right; eauto|].
  destruct (kubernetes_NewForConfig w); [right; eauto|].
  destruct (dynamic_NewForConfig w); [right; eauto|].
  destruct (crclient_New w); [left; eauto | right; eauto].
Qed.

(** [GetKubernetesClient] returns either a client and no error, or no client
    and the error of the first step that failed, in the order
    [config.GetConfig], [kubernetes.NewForConfig], [dynamic.NewForConfig],
    [crclient.New]; later steps do not matter once one has failed. *)
Theorem GetKubernetesClient_first_failure (w : World) :
  ((exists crClient : CrClientT,
      GetKubernetesClient w = (Some {| CrClient := crClient |}, None)
      /\ crclient_New w = Ok crClient)
   \/ (exists e : string, GetKubernetesClient w = (None, Some e)))
  /\ (forall e : string,
        config_GetConfig w = Some e ->
        GetKubernetesClient w = (None, Some e))
  /\ (forall e : string,
        config_GetConfig w = None -> kubernetes_NewForConfig w = Some e ->
        GetKubernetesClient w = (None, Some e))
  /\ (forall e : string,
        config_GetConfig w = None -> kubernetes_NewForConfig w = None ->
        dynamic_NewForConfig w = Some e ->
        GetKubernetesClient w = (None, Some e))
  /\ (forall e : string,
        config_GetConfig w = None -> kubernetes_NewForConfig w = None ->
        dynamic_NewForConfig w = None -> crclient_New w = Err e ->
        GetKubernetesClient w = (None, Some e)).
Proof.
  unfold GetKubernetesClient. repeat apply conj.
  - destruct (config_GetConfig w); [right; eauto|].
    destruct (kubernetes_NewForConfig w); [right; eauto|].
    destruct (dynamic_NewForConfig w); [right; eauto|].
    destruct (crclient_New w); [left; eauto | right; eauto].
  - by intros e ->.
  - by intros e -> ->.
  - by intros e -> -> ->.
  - by intros e -> -> -> ->.
Qed.

(** ** The launch handlers in every world *)

Lemma launchValidated_one_reply (w : World) (api : Client)
    (event : MessageEvent) (arg0 arg1 : string) :
  result (launchValidated w api event arg0 arg1) = Some tt
  /\ exists text : string,
       forall api' : Client,
         replies (launchValidated w api' event arg0 arg1) =
           [(Channel event, text)].
Proof.
  unfold launchValidated.
  destruct (negb (isSupportedClusterType (ToLower arg0))).
  - split; [apply respondError_replies|].
    eexists. intros api'. apply respondError_replies.
  - destruct (supportedSizes !! ToLower arg1) as [spec|].
    + split.
      * unfold bind, emit, ret. simpl.
        by destruct (PostMessage_err api _ _).
      * eexists. intros api'. unfold replies, bind, emit, ret. simpl.
        by destruct (PostMessage_err api' _ _).
    + split; [apply respondError_replies|].
      eexists. intros api'. apply respondError_replies.
Qed.

(** [HandleLaunch] of [launch.go] returns in every world and for every
    argument list, and posts exactly one message, to the channel of the
    event; which message it posts does not depend on whether the post
    succeeds: a failed post is not repeated. *)
Theorem HandleLaunch_always_one_reply (w : World) (api : Client)
    (event : MessageEvent) (args : list string) :
  result (launch_go.HandleLaunch w api event args) = Some tt
  /\ exists text : string,
       forall api' : Client,
         replies (launch_go.HandleLaunch w api' event args) =
           [(Channel event, text)].
Proof.
  unfold launch_go.HandleLaunch. destruct (length args <? 2).
  - split; [apply respondError_replies|].
    eexists. intros api'. apply respondError_replies.
  - apply launchValidated_one_reply.
Qed.

(** [HandleLaunch] with the control-plane call: with fewer than two
    arguments it is [HandleLaunch] of [launch.go], whatever the world; with
    two or more and a failed client construction it logs the error and
    panics on the nil client, and nothing is posted. *)
Theorem commands_HandleLaunch_needs_client (w : World) (api : Client)
    (event : MessageEvent) (args : list string) :
  (length args < 2 ->
   commands.HandleLaunch w api event args =
     launch_go.HandleLaunch w api event args)
  /\ (forall e : string,
        2 <= length args ->
        (GetKubernetesClient w).2 = Some e ->
        commands.HandleLaunch w api event args =
          ([LogPrintf ("Error getting kubernetes clinet: " +:+ e)], None)).
Proof.
  unfold commands.HandleLaunch, launch_go.HandleLaunch. split.
  - intros H. by rewrite (proj2 (Nat.ltb_lt _ _) H).
  - intros e H He. rewrite (proj2 (Nat.ltb_ge _ _) H).
    destruct (GetKubernetesClient_cases w) as [[c Hc]|[e' Hc]];
      rewrite Hc in *; simpl in He; [done|].
    by injection He as ->.
Qed.

(** ** The list handler in every world *)

(** [HandleList] returns in every world and posts exactly one message, to
    the channel of the event: it never panics, since it uses the client only
    when [GetKubernetesClient] returned no error. Its arguments are not
    read. *)
Theorem HandleList_always_one_reply (w : World) (api : Client)
    (event : MessageEvent) (args : list string) :
  result (commands.HandleList w api event args) = Some tt
  /\ (exists text : string,
        replies (commands.HandleList w api event args) =
          [(Channel event, text)])
  /\ commands.HandleList w api event args =
     commands.HandleList w api event [].
Proof.
  destruct (GetKubernetesClient_cases w) as [[client Hc]|[e Hc]].
  - destruct (List_KindList (CrClient client)) as [kinds|e] eqn:Hk.
    + destruct (List_OpenshiftList (CrClient client)) as [openshifts|e]
        eqn:Ho.
      * destruct (HandleList_with_lists w api event args client kinds
                    openshifts Hc Hk Ho) as [-> ->].
        eauto.
      * unfold commands.HandleList. rewrite Hc, Hk, Ho.
        destruct (replies_log_then
                    ("Error listing MAPT openshift clusters: " +:+ e)
                    (respondError api (Channel event)
                       "❌ Failed to retrieve cluster list")) as [-> ->].
        destruct (respondError_replies api (Channel event)
                    "❌ Failed to retrieve cluster list") as [-> ->].
        eauto.
    + unfold commands.HandleList. rewrite Hc, Hk.
      destruct (replies_log_then ("Error listing MAPT kind clusters: " +:+ e)
                  (respondError api (Channel event)
                     "❌ Failed to retrieve cluster list")) as [-> ->].
      destruct (respondError_replies api (Channel event)
                  "❌ Failed to retrieve cluster list") as [-> ->].
      eauto.
  - unfold commands.HandleList. rewrite Hc.
    destruct (replies_log_then ("Error getting kubernetes client: " +:+ e)
                (respondError api (Channel event)
                   "❌ Failed to connect to Kubernetes cluster")) as [-> ->].
    destruct (respondError_replies api (Channel event)
                "❌ Failed to connect to Kubernetes cluster") as [-> ->].
    eauto.
Qed.

(** In each failure path of [HandleList] the underlying error goes to the
    log, before the post, and the message posted has a fixed text that does
    not show it. *)
Theorem HandleList_failure_logged (w : World) (api : Client)
    (event : MessageEvent) (args : list string) :
  (forall e : string,
     (GetKubernetesClient w).2 = Some e ->
     trace (commands.HandleList w api event args) =
       LogPrintf ("Error getting kubernetes client: " +:+ e)
       :: trace (respondError api (Channel event)
                   "❌ Failed to connect to Kubernetes cluster"))
  /\ (forall (client : KubernetesClients) (e : string),
        GetKubernetesClient w = (Some client, None) ->
        List_KindList (CrClient client) = Err e ->
        trace (commands.HandleList w api event args) =
          LogPrintf ("Error listing MAPT kind clusters: " +:+ e)
          :: trace (respondError api (Channel event)
                      "❌ Failed to retrieve cluster list"))
  /\ (forall (client : KubernetesClients) (kinds : list Kind) (e : string),
        GetKubernetesClient w = (Some client, None) ->
        List_KindList (CrClient client) = Ok kinds ->
        List_OpenshiftList (CrClient client) = Err e ->
        trace (commands.HandleList w api event args) =
          LogPrintf ("Error listing MAPT openshift clusters: " +:+ e)
          :: trace (respondError api (Channel event)
                      "❌ Failed to retrieve cluster list")).
Proof.
  repeat apply conj.
  - intros e He. unfold commands.HandleList.
    destruct (GetKubernetesClient w) as [client err]. simpl in He. subst err.
    by destruct (respondError api _ _) as [t [[]|]].
  - intros client e Hc Hk. unfold commands.HandleList. rewrite Hc, Hk.
    by destruct (respondError api _ _) as [t [[]|]].
  - intros client kinds e Hc Hk Ho. unfold commands.HandleList.
    rewrite Hc, Hk, Ho.
    by destruct (respondError api _ _) as [t [[]|]].
Qed.

(** ** Help *)

(** [handleHelp], on any registry: it posts one message to the channel of
    the event and nothing else (a failed post is not even logged), and
    leaves the registry as it is; the message is the heading followed by one
    entry for each registered command, each exactly once, so the entry of
    every registered command, with its description and usage, is in it. *)
Theorem handleHelp_lists_registry (w : World) (api : Client)
    (event : MessageEvent) (args : list string)
    (reg : gmap string handlers.Command) :
  handlers.handleHelp w api event args reg =
    ([PostMessage (Channel event) (handlers.helpText (range_seed w) reg)],
     Some (tt, reg))
  /\ (exists order : list (string * handlers.Command),
        Permutation order (map_to_list reg)
        /\ handlers.helpText (range_seed w) reg =
           ("📖 *Available commands:*" +:+ LF) +:+
           concatAll (map handlers.helpEntry order))
  /\ (forall (K : string) (command : handlers.Command),
        reg !! K = Some command ->
        Contains (handlers.helpText (range_seed w) reg)
          (LF +:+ "• *" +:+ K +:+ "* — " +:+
           handlers.Description command +:+ LF +:+
           "  _Usage:_ " +:+ handlers.Usage command +:+ LF) = true).
Proof.
  repeat apply conj.
  - reflexivity.
  - exists (range_map (range_seed w) reg). split.
    + apply range_map_Permutation.
    + unfold handlers.helpText. apply fold_left_append.
  - intros K command HK. unfold handlers.helpText.
    rewrite fold_left_append. apply Contains_app_r.
    pose proof (range_map_In (range_seed w) reg K command HK) as Hin.
    generalize dependent (range_map (range_seed w) reg). intros l Hin.
    apply Contains_concatAll.
    exact (in_map handlers.helpEntry l (K, command) Hin).
Qed.

Lemma replies_then_ret {A B} (m : W A) (b : B) :
  replies (m ;;; ret b) = replies m /\
  result (m ;;; ret b) = match result m with Some _ => Some b | None => None end.
Proof.
  destruct m as [t [a|]]; unfold replies, bind, ret; simpl; [|done].
  by rewrite app_nil_r.
Qed.

(** The help listing of the registry of the program, spelled out: the
    heading and the entries of the three commands, each once, in the order
    of the map loop. *)
Lemma helpText_entries (seed : list nat) :
  exists e1 e2 e3 : string,
    Permutation [e1; e2; e3]
      [LF +:+ "• *launch* — Launch a cluster with specified type and size." +:+
       LF +:+ "  _Usage:_ `launch <cluster_type> <size>`" +:+ LF +:+
       "Example: `launch kubernetes large`" +:+ LF;
       LF +:+ "• *list* — List all mapt clusters." +:+ LF +:+
       "  _Usage:_ `list`" +:+ LF;
       LF +:+ "• *help* — Show available commands and usage." +:+ LF +:+
       "  _Usage:_ `help`" +:+ LF]
    /\ handlers.helpText seed handlers.commandRegistry =
       "📖 *Available commands:*" +:+ LF +:+ e1 +:+ e2 +:+ e3.
Proof.
  unfold handlers.helpText. rewrite fold_left_append.
  pose proof (range_map_Permutation seed handlers.commandRegistry) as Hperm.
  rewrite commandRegistry_entries in Hperm.
  generalize dependent (range_map seed handlers.commandRegistry).
  intros l Hperm.
  pose proof (Permutation_length Hperm) as Hlen.
  destruct l as [|x1 [|x2 [|x3 [|x4 l]]]]; try discriminate Hlen.
  exists (handlers.helpEntry x1), (handlers.helpEntry x2),
         (handlers.helpEntry x3).
  split.
  - rewrite (Permutation_map handlers.helpEntry Hperm). apply perm_swap.
  - simpl. by rewrite append_nil_r, append_assoc.
Qed.

(** The keyword [help] in any letter case and every unregistered keyword
    get the same reply: the help listing of the registry, posted once to the
    channel of the event; what follows the keyword is not read. The listing
    is the heading and the entries of [launch], [list] and [help], each
    once. *)
Theorem help_and_unknown_keyword_reply (w : World) (api : Client)
    (event : MessageEvent) (t : string) (rest : list string) :
  BotID event = "" ->
  Fields (TrimSpace (Text event)) = t :: rest ->
  ToLower t = "help" \/ handlers.commandRegistry !! ToLower t = None ->
  replies (handlers.HandleMessageEvent w api event handlers.commandRegistry) =
    [(Channel event,
      handlers.helpText (range_seed w) handlers.commandRegistry)]
  /\ result (handlers.HandleMessageEvent w api event
               handlers.commandRegistry) =
     Some (tt, handlers.commandRegistry)
  /\ exists e1 e2 e3 : string,
       Permutation [e1; e2; e3]
         [LF +:+
          "• *launch* — Launch a cluster with specified type and size." +:+
          LF +:+ "  _Usage:_ `launch <cluster_type> <size>`" +:+ LF +:+
          "Example: `launch kubernetes large`" +:+ LF;
          LF +:+ "• *list* — List all mapt clusters." +:+ LF +:+
          "  _Usage:_ `list`" +:+ LF;
          LF +:+ "• *help* — Show available commands and usage." +:+ LF +:+
          "  _Usage:_ `help`" +:+ LF]
       /\ replies (handlers.HandleMessageEvent w api event
                     handlers.commandRegistry) =
          [(Channel event,
            "📖 *Available commands:*" +:+ LF +:+ e1 +:+ e2 +:+ e3)].
Proof.
  intros Hbot Hf Ht.
  assert (replies (handlers.HandleMessageEvent w api event
                     handlers.commandRegistry) =
            [(Channel event,
              handlers.helpText (range_seed w) handlers.commandRegistry)]
          /\ result (handlers.HandleMessageEvent w api event
                       handlers.commandRegistry) =
             Some (tt, handlers.commandRegistry)) as [Hr Hres].
  { rewrite (HandleMessageEvent_fields _ _ _ _ _ _ Hbot Hf).
    destruct Ht as [-> | ->]; done. }
  repeat apply conj; [exact Hr | exact Hres |].
  destruct (helpText_entries (range_seed w)) as (e1 & e2 & e3 & Hp & He).
  exists e1, e2, e3. split; [exact Hp|]. by rewrite Hr, He.
Qed.

(** ** The dispatcher in every world *)

Lemma HandleLaunch_always_one_reply_aux (w : World) (api : Client)
    (event : MessageEvent) (args : list string) :
  exists text : string,
    replies (launch_go.HandleLaunch w api event args) = [(Channel event, text)].
Proof.
  unfold launch_go.HandleLaunch. destruct (length args <? 2).
  - eexists. apply respondError_replies.
  - destruct (launchValidated_one_reply w api event
                (nth 0 args EmptyString) (nth 1 args EmptyString))
      as (_ & text & H).
    exists text. apply H.
Qed.

Lemma HandleList_one_reply_aux (w : World) (api : Client)
    (event : MessageEvent) (args : list string) :
  exists text : string,
    replies (commands.HandleList w api event args) = [(Channel event, text)].
Proof.
  destruct (GetKubernetesClient_cases w) as [[client Hc]|[e Hc]].
  - destruct (List_KindList (CrClient client)) as [kinds|e] eqn:Hk.
    + destruct (List_OpenshiftList (CrClient client)) as [openshifts|e]
        eqn:Ho.
      * destruct (HandleList_with_lists w api event args client kinds
                    openshifts Hc Hk Ho) as [-> _].
        eauto.
      * unfold commands.HandleList. rewrite Hc, Hk, Ho.
        rewrite (proj1 (replies_log_then _ _)).
        eexists. apply respondError_replies.
    + unfold commands.HandleList. rewrite Hc, Hk.
      rewrite (proj1 (replies_log_then _ _)).
      eexists. apply respondError_replies.
  - unfold commands.HandleList. rewrite Hc.
    rewrite (proj1 (replies_log_then _ _)).
    eexists. apply respondError_replies.
Qed.

Lemma commands_HandleLaunch_replies (w : World) (api : Client)
    (event : MessageEvent) (args : list string) :
  replies (commands.HandleLaunch w api event args) = []
  \/ exists text : string,
       replies (commands.HandleLaunch w api event args) =
         [(Channel event, text)].
Proof.
  destruct (GetKubernetesClient_cases w) as [[client Hc]|[e Hc]].
  - right.
    destruct (commands_HandleLaunch_with_client w api event args client Hc)
      as [-> _].
    destruct (HandleLaunch_always_one_reply_aux w api event args)
      as (text & H).
    by exists text.
  - unfold commands.HandleLaunch. destruct (length args <? 2).
    + right. eexists. apply respondError_replies.
    + left. by rewrite Hc.
Qed.

Lemma call_replies (h : handlers.CommandHandler) (w : World) (api : Client)
    (event : MessageEvent) (args : list string)
    (reg : gmap string handlers.Command) :
  replies (handlers.call h w api event args reg) = []
  \/ exists text : string,
       replies (handlers.call h w api event args reg) =
         [(Channel event, text)].
Proof.
  destruct h; unfold handlers.call.
  - rewrite (proj1 (replies_then_ret _ _)).
    apply commands_HandleLaunch_replies.
  - rewrite (proj1 (replies_then_ret _ _)). right.
    destruct (HandleList_one_reply_aux w api event args) as (text & H).
    by exists text.
  - right. by eexists.
Qed.

(** For every message, registry and world, [HandleMessageEvent] posts at
    most one message, and only to the channel the message came from. *)
Theorem HandleMessageEvent_at_most_one_reply (w : World) (api : Client)
    (event : MessageEvent) (reg : gmap string handlers.Command) :
  replies (handlers.HandleMessageEvent w api event reg) = []
  \/ exists text : string,
       replies (handlers.HandleMessageEvent w api event reg) =
         [(Channel event, text)].
Proof.
  unfold handlers.HandleMessageEvent.
  destruct (negb _); [by left|].
  destruct (length _ =? 0); [by left|].
  destruct (reg !! _) as [command|].
  - rewrite (proj1 (replies_log_then _ _)). apply call_replies.
  - right. by eexists.
Qed.

(** What [HandleMessageEvent] does with a message depends on the text only
    through its fields: two messages with the same bot id, user and channel
    whose texts have the same fields are handled alike. *)
Theorem HandleMessageEvent_reads_fields_only (w : World) (api : Client)
    (event1 event2 : MessageEvent) (reg : gmap string handlers.Command) :
  BotID event1 = BotID event2 ->
  User event1 = User event2 ->
  Channel event1 = Channel event2 ->
  Fields (TrimSpace (Text event1)) = Fields (TrimSpace (Text event2)) ->
  handlers.HandleMessageEvent w api event1 reg =
  handlers.HandleMessageEvent w api event2 reg.
Proof.
  destruct event1 as [b1 t1 u1 c1], event2 as [b2 t2 u2 c2]. simpl.
  intros -> -> -> Hf. unfold handlers.HandleMessageEvent.
  cbn [BotID Text User Channel]. rewrite Hf.
  destruct (negb _); [done|].
  destruct (length _ =? 0); [done|].
  destruct (reg !! _) as [command|]; [|done].
  by destruct (handlers.Handler command).
Qed.

(** A message whose keyword is [launch] in any letter case, followed by
    fewer than two further fields, gets the missing-arguments reply with the
    usage block, and the handler returns: this holds in every world, also
    when no Kubernetes client can be constructed. *)
Theorem launch_without_arguments (w : World) (api : Client)
    (event : MessageEvent) (t : string) (rest : list string) :
  BotID event = "" ->
  Fields (TrimSpace (Text event)) = t :: rest ->
  ToLower t = "launch" ->
  length rest < 2 ->
  replies (handlers.HandleMessageEvent w api event handlers.commandRegistry) =
    [(Channel event, "❌ Missing arguments." +:+ LF +:+ LF +:+ launchUsage)]
  /\ result (handlers.HandleMessageEvent w api event
               handlers.commandRegistry) =
     Some (tt, handlers.commandRegistry).
Proof.
  intros Hbot Hf Ht Hlen.
  rewrite (HandleMessageEvent_fields _ _ _ _ _ _ Hbot Hf), Ht.
  change (handlers.commandRegistry !! "launch")
    with (Some handlers.launchCommand).
  destruct (replies_log_then
              ("Received '" +:+ "launch" +:+ "' command from user " +:+
               User event +:+ " in channel " +:+ Channel event)
              (handlers.call (handlers.Handler handlers.launchCommand) w api
                 event rest handlers.commandRegistry)) as [-> ->].
  unfold handlers.call. simpl handlers.Handler.
  destruct (replies_then_ret (commands.HandleLaunch w api event rest)
              (tt, handlers.commandRegistry)) as [-> ->].
  unfold commands.HandleLaunch. rewrite (proj2 (Nat.ltb_lt _ _) Hlen).
  by destruct (respondError_replies api (Channel event) missingArgumentsText)
    as [-> ->].
Qed.

(** ** The cluster types *)

(** [isSupportedClusterType] accepts exactly the strings [k8s] and
    [openshift], byte for byte: on its own it is sensitive to letter case,
    and rejects every string that lower-casing would change. *)
Theorem isSupportedClusterType_exact (t : string) :
  (isSupportedClusterType t = true <-> t = "k8s" \/ t = "openshift")
  /\ (ToLower t <> t -> isSupportedClusterType t = false).
Proof.
  split; [apply isSupportedClusterType_true|].
  intros Hl. apply isSupportedClusterType_false.
  split; intros ->; by apply Hl.
Qed.

(** ** Fields *)

Lemma flushField_ok (cur : string) :
  hasAsciiSpace cur = false ->
  Forall (fun f : string => f <> "" /\ hasAsciiSpace f = false)
    (flushField cur).
Proof.
  intros H. destruct cur; simpl; [constructor|].
  constructor; [split; [done | exact H] | constructor].
Qed.

Lemma hasAsciiSpace_app (s t : string) :
  hasAsciiSpace (s +:+ t) = hasAsciiSpace s || hasAsciiSpace t.
Proof.
  induction s as [|c s IH]; [done|].
  rewrite append_cons. simpl. by rewrite IH, orb_assoc.
Qed.

Lemma spaceWidth_0_not_space (c : ascii) (rest : string) :
  spaceWidth (String c rest) = 0 -> asciiSpace c = false.
Proof.
  unfold spaceWidth. by destruct (asciiSpace c).
Qed.

Lemma FieldsFrom_ok (skip : nat) (cur s : string) :
  hasAsciiSpace cur = false ->
  Forall (fun f : string => f <> "" /\ hasAsciiSpace f = false)
    (FieldsFrom skip cur s).
Proof.
  revert skip cur. induction s as [|c rest IH]; intros skip cur Hcur.
  - by apply flushField_ok.
  - destruct skip as [|k].
    + cbn [FieldsFrom].
      destruct (spaceWidth (String c rest)) as [|k] eqn:Hw.
      * apply IH. rewrite hasAsciiSpace_app, Hcur. simpl.
        by rewrite (spaceWidth_0_not_space c rest Hw).
      * apply Forall_app. split; [by apply flushField_ok | by apply IH].
    + cbn [FieldsFrom]. by apply IH.
Qed.

(** The fields that [HandleMessageEvent] cuts the text into, the keyword
    and the arguments handed to the handler, are never empty and have no
    ASCII white-space byte in them. *)
Theorem Fields_nonempty_without_space (text : string) :
  Forall (fun f : string => f <> "" /\ hasAsciiSpace f = false)
    (Fields (TrimSpace text)).
Proof. by apply FieldsFrom_ok. Qed.

(** ** The event loop *)

Lemma handled_app (t1 t2 : list slack.LoopEffect) :
  handled (t1 ++ t2) = handled t1 ++ handled t2.
Proof.
  induction t1 as [|[r|e] t1 IH]; simpl; [done | done | by rewrite IH].
Qed.

Lemma handled_Handling (t : list Effect) :
  handled (map slack.Handling t) = t.
Proof. induction t as [|e t IH]; simpl; [done | by rewrite IH]. Qed.

Lemma acked_app (t1 t2 : list slack.LoopEffect) :
  acked (t1 ++ t2) = acked t1 ++ acked t2.
Proof.
  induction t1 as [|[r|e] t1 IH]; simpl; [done | by rewrite IH | done].
Qed.

Lemma acked_Handling (t : list Effect) :
  acked (map slack.Handling t) = [].
Proof. induction t as [|e t IH]; simpl; done. Qed.

(** The loop of [Slack.Run] hands to [HandleMessageEvent] exactly the
    message events that arrive with type [events_api], in their order, each
    on the registry the one before left; events of another type and
    payloads that are not message events have no effect through the
    handlers. So what the handlers post and log, and whether the loop is
    still running at the end, are those of [Run] on these messages. *)
Theorem Run_handles_message_events (arrivals : list slack.Arrival)
    (reg : gmap string handlers.Command) :
  requestsPresent arrivals ->
  handled (slack.Run arrivals reg).1 =
    trace (Run (deliveries_of arrivals) reg)
  /\ (slack.Run arrivals reg).2 = result (Run (deliveries_of arrivals) reg).
Proof.
  revert reg. induction arrivals as [|a rest IH]; intros reg Hreq; [done|].
  apply Forall_cons in Hreq as [Ha Hrest].
  cbn [slack.Run deliveries_of].
  destruct (slack.Type_ (slack.arrival_event a)) eqn:Ht; [|by apply IH].
  destruct (slack.Request (slack.arrival_event a)) as [request|] eqn:Hr;
    [|by destruct Ha].
  destruct (slack.Data (slack.arrival_event a)) as [[e|]|] eqn:Hd.
  - cbn [events.HandleEvent Run world api event].
    destruct (handlers.HandleMessageEvent (slack.arrival_world a)
                (slack.arrival_api a) e reg) as [t [[[] reg1]|]]; simpl.
    + destruct (IH reg1 Hrest) as [IH1 IH2].
      destruct (slack.Run rest reg1) as [t1 r1].
      destruct (Run (deliveries_of rest) reg1) as [t2 r2].
      simpl in *. subst. by rewrite handled_app, handled_Handling.
    + by rewrite handled_Handling.
  - cbn [events.HandleEvent]. simpl.
    destruct (IH reg Hrest) as [IH1 IH2].
    destruct (slack.Run rest reg) as [t1 r1]. simpl in *. by subst.
  - destruct (IH reg Hrest) as [IH1 IH2].
    destruct (slack.Run rest reg) as [t1 r1]. simpl in *. by subst.
Qed.

(** When the loop of [Slack.Run] gets through its events, it has
    acknowledged every event of type [events_api] exactly once, in the order
    of arrival, whatever the payload, and no other event; and the registry
    is the one it started on. *)
Theorem Run_acks_events_api (arrivals : list slack.Arrival)
    (reg reg' : gmap string handlers.Command) (t : list slack.LoopEffect) :
  slack.Run arrivals reg = (t, Some reg') ->
  acked t = requests_of arrivals /\ reg' = reg.
Proof.
  revert reg t. induction arrivals as [|a rest IH]; intros reg t.
  - by intros [= <- <-].
  - cbn [slack.Run requests_of].
    destruct (slack.Type_ (slack.arrival_event a)); [|apply IH].
    destruct (slack.Request (slack.arrival_event a)) as [request|];
      [|done].
    destruct (slack.Data (slack.arrival_event a)) as [inner|].
    + destruct (events.HandleEvent (slack.arrival_world a)
                  (slack.arrival_api a) inner reg)
        as [t1 [[[] reg1]|]] eqn:E; [|done].
      assert (reg1 = reg) as ->.
      { destruct inner as [e|]; simpl in E.
        - apply (HandleMessageEvent_keeps_registry (slack.arrival_world a)
                   (slack.arrival_api a) e). by rewrite E.
        - by injection E as _ ->. }
      destruct (slack.Run rest reg) as [t2 r2] eqn:E2.
      intros [= <- ->]. destruct (IH reg t2 E2) as [IHa ->].
      simpl. by rewrite acked_app, acked_Handling, IHa.
    + destruct (slack.Run rest reg) as [t2 r2] eqn:E2.
      intros [= <- ->]. destruct (IH reg t2 E2) as [IHa ->].
      simpl. by rewrite IHa.
Qed.

(** A [launch] message with two or more arguments, when no Kubernetes
    client can be constructed, ends the loop of [Slack.Run]: the event is
    acknowledged, the command and the error are logged, the handler panics,
    and none of the events after it is handled or acknowledged. *)
Theorem launch_without_client_stops_the_loop (a : slack.Arrival)
    (rest : list slack.Arrival) (request : string) (e : MessageEvent)
    (t : string) (args : list string) (err : string) :
  slack.Type_ (slack.arrival_event a) = slack.EventTypeEventsAPI ->
  slack.Request (slack.arrival_event a) = Some request ->
  slack.Data (slack.arrival_event a) =
    slack.EventsAPIEventData (events.MessageEventData e) ->
  BotID e = "" ->
  Fields (TrimSpace (Text e)) = t :: args ->
  ToLower t = "launch" ->
  2 <= length args ->
  (GetKubernetesClient (slack.arrival_world a)).2 = Some err ->
  slack.Run (a :: rest) handlers.commandRegistry =
    ([slack.Ack request;
      slack.Handling
        (LogPrintf ("Received 'launch' command from user " +:+ User e +:+
                    " in channel " +:+ Channel e));
      slack.Handling
        (LogPrintf ("Error getting kubernetes clinet: " +:+ err))],
     None).
Proof.
  intros Ht Hr Hd Hbot Hf Hl Hlen Herr.
  cbn [slack.Run]. rewrite Ht, Hr, Hd. cbn [events.HandleEvent].
  rewrite (HandleMessageEvent_fields _ _ _ _ _ _ Hbot Hf), Hl.
  change (handlers.commandRegistry !! "launch")
    with (Some handlers.launchCommand).
  unfold handlers.call. simpl handlers.Handler.
  unfold commands.HandleLaunch. rewrite (proj2 (Nat.ltb_ge _ _) Hlen).
  destruct (GetKubernetesClient_cases (slack.arrival_world a))
    as [[c Hc]|[e' Hc]]; rewrite Hc in *; simpl in Herr; [done|].
  injection Herr as ->. reflexivity.
Qed.

(** ** Letter case of the launch arguments *)

(** Both versions of [HandleLaunch] read their arguments only through the
    lower-cased first two: argument lists that agree on these up to letter
    case are handled alike, on the success path and on every error path. *)
Theorem HandleLaunch_reads_lowercase_pair (w : World) (api : Client)
    (event : MessageEvent) (a0 a1 b0 b1 : string)
    (rest1 rest2 : list string) :
  ToLower a0 = ToLower b0 ->
  ToLower a1 = ToLower b1 ->
  launch_go.HandleLaunch w api event (a0 :: a1 :: rest1) =
    launch_go.HandleLaunch w api event (b0 :: b1 :: rest2)
  /\ commands.HandleLaunch w api event (a0 :: a1 :: rest1) =
     commands.HandleLaunch w api event (b0 :: b1 :: rest2).
Proof.
  intros H0 H1.
  assert (launchValidated w api event a0 a1 =
          launchValidated w api event b0 b1) as Hv
    by (unfold launchValidated; by rewrite H0, H1).
  split.
  - by rewrite !HandleLaunch_two.
  - unfold commands.HandleLaunch.
    change (length (a0 :: a1 :: rest1) <? 2) with false.
    change (length (b0 :: b1 :: rest2) <? 2) with false.
    cbn [nth]. by rewrite Hv.
Qed.

(** ** Trimming before cutting into fields *)

(** The shapes of a string by the white-space rune at its head; a rune is
    told by its own bytes, whatever follows. *)
Lemma spaceWidth_cases (s : string) :
  spaceWidth s = 0
  \/ (exists c0 rest, s = String c0 rest
        /\ forall x, spaceWidth (String c0 x) = 1)
  \/ (exists c0 c1 rest, s = String c0 (String c1 rest)
        /\ forall x, spaceWidth (String c0 (String c1 x)) = 2)
  \/ (exists c0 c1 c2 rest, s = String c0 (String c1 (String c2 rest))
        /\ forall x, spaceWidth (String c0 (String c1 (String c2 x))) = 3).
Proof.
  destruct s as [|c0 [|c1 [|c2 rest]]]; [by left| | |].
  - unfold spaceWidth. destruct (asciiSpace c0) eqn:E0; [|by left].
    right; left. exists c0, "". split; [done|]. intros x. simpl. by rewrite E0.
  - unfold spaceWidth. destruct (asciiSpace c0) eqn:E0.
    { right; left. exists c0, (String c1 ""). split; [done|].
      intros x. simpl. by rewrite E0. }
    cbv zeta.
    destruct ((N_of_ascii c0 =? 194)%N &&
              ((N_of_ascii c1 =? 133)%N || (N_of_ascii c1 =? 160)%N)) eqn:E1;
      [|by left].
    right; right; left. exists c0, c1, "". split; [done|].
    intros x. simpl. by rewrite E0, E1.
  - unfold spaceWidth. destruct (asciiSpace c0) eqn:E0.
    { right; left. exists c0, (String c1 (String c2 rest)). split; [done|].
      intros x. simpl. by rewrite E0. }
    cbv zeta.
    destruct ((N_of_ascii c0 =? 194)%N &&
              ((N_of_ascii c1 =? 133)%N || (N_of_ascii c1 =? 160)%N)) eqn:E1.
    { right; right; left. exists c0, c1, (String c2 rest). split; [done|].
      intros x. simpl. by rewrite E0, E1. }
    match goal with
    | |- context [if ?a then 3 else if ?b then 3 else if ?c then 3
                  else if ?d then 3 else 0] =>
        destruct (a || b || c || d) eqn:E2
    end.
    + right; right; right. exists c0, c1, c2, rest. split; [done|].
      intros x. simpl. rewrite E0, E1.
      apply orb_true_iff in E2 as [E2|E2];
        [apply orb_true_iff in E2 as [E2|E2];
           [apply orb_true_iff in E2 as [E2|E2]|]|];
        rewrite E2; repeat match goal with |- context [if ?b then _ else _] =>
                                            destruct b end; done.
    + left. apply orb_false_iff in E2 as [E2 Ed].
      apply orb_false_iff in E2 as [E2 Ec].
      apply orb_false_iff in E2 as [Ea Eb].
      by rewrite Ea, Eb, Ec, Ed.
Qed.

Lemma spaceWidth_0_prefix (c : ascii) (x y : string) :
  spaceWidth (String c (x +:+ y)) = 0 -> spaceWidth (String c x) = 0.
Proof.
  destruct x as [|c1 [|c2 x]]; rewrite ?append_cons, ?append_nil_l.
  - unfold spaceWidth. destruct (asciiSpace c); [done|]. by destruct y.
  - unfold spaceWidth. destruct (asciiSpace c); [done|]. cbv zeta.
    destruct (_ && _); [done|]. by destruct y.
  - done.
Qed.

(** What [TrimSpaceFrom] returns, once started, is the text it was given
    without some bytes at its end. *)
Lemma TrimSpaceFrom_prefix (s : string) (skip : nat) (pending : string) :
  exists tail : string,
    pending +:+ s = TrimSpaceFrom true skip pending s +:+ tail.
Proof.
  revert skip pending. induction s as [|c rest IH]; intros skip pending.
  - exists pending. by rewrite append_nil_r.
  - assert (exists tail : string,
              pending +:+ String c rest =
              TrimSpaceFrom true 0 (pending +:+ String c "") rest +:+ tail
              /\ forall k, exists tail : string,
                   pending +:+ String c rest =
                   TrimSpaceFrom true k (pending +:+ String c "") rest
                     +:+ tail) as (tail0 & H0 & Hk).
    { destruct (IH 0 (pending +:+ String c "")) as [tail H].
      exists tail. rewrite <- H, append_assoc. split; [done|].
      intros k. destruct (IH k (pending +:+ String c "")) as [tail' H'].
      exists tail'. by rewrite <- H', append_assoc. }
    destruct skip as [|k]; cbn [TrimSpaceFrom]; [|apply Hk].
    destruct (spaceWidth (String c rest)) as [|k]; [|apply Hk].
    destruct (IH 0 "") as [tail H]. rewrite append_nil_l in H.
    exists tail. by rewrite append_assoc, append_cons, <- H.
Qed.

Lemma trimmedFields_by_length (n : nat) (s : string) :
  String.length s <= n -> trimmedFields_ok s.
Proof.
  revert s. induction n as [|n IH]; intros s Hlen.
  { destruct s; [|simpl in Hlen; lia].
    repeat split; intros; simpl; by rewrite ?app_nil_r. }
  destruct (spaceWidth_cases s)
    as [Hw|[(c0 & rest & -> & Hw)|[(c0 & c1 & rest & -> & Hw)|
        (c0 & c1 & c2 & rest & -> & Hw)]]].
  - destruct s as [|c rest].
    { repeat split; intros; simpl; by rewrite ?app_nil_r. }
    destruct (IH rest ltac:(simpl in Hlen; lia)) as (_ & IHb & _).
    destruct (TrimSpaceFrom_prefix rest 0 "") as [tail Htail].
    rewrite append_nil_l in Htail.
    assert (spaceWidth (String c (TrimSpaceFrom true 0 "" rest)) = 0) as Hw'.
    { apply (spaceWidth_0_prefix c _ tail). by rewrite <- Htail. }
    repeat split.
    + intros cur pending Hp Hws. cbn [TrimSpaceFrom]. rewrite Hw.
      rewrite Hws. cbn [FieldsFrom]. rewrite Hw, Hw'. by rewrite IHb.
    + intros cur. cbn [TrimSpaceFrom]. rewrite Hw, append_nil_l.
      cbn [FieldsFrom]. rewrite Hw, Hw'. by rewrite IHb.
    + intros pending. cbn [TrimSpaceFrom]. rewrite Hw, append_nil_l.
      cbn [FieldsFrom]. rewrite Hw, Hw'. by rewrite IHb.
  - destruct (IH rest ltac:(simpl in Hlen; lia)) as (IHa & _ & IHc).
    assert (forall pending,
              (pending = "" \/
               forall x cur', FieldsFrom 0 cur' (pending +:+ x) =
                              flushField cur' ++ FieldsFrom 0 "" x) ->
              forall x cur',
                FieldsFrom 0 cur' ((pending +:+ String c0 "") +:+ x) =
                flushField cur' ++ FieldsFrom 0 "" x) as Hclose.
    { intros pending Hp x cur'. rewrite append_assoc, append_cons, append_nil_l.
      destruct Hp as [->|Hp].
      - rewrite append_nil_l. cbn [FieldsFrom]. by rewrite Hw.
      - rewrite Hp. cbn [FieldsFrom]. by rewrite Hw. }
    assert (forall pending, pending +:+ String c0 "" <> "") as Hne
      by (intros [|? ?]; done).
    repeat split.
    + intros cur pending Hp Hws. cbn [TrimSpaceFrom FieldsFrom]. rewrite !Hw.
      rewrite IHa; [done | apply Hne | apply Hclose; by right].
    + intros cur. cbn [TrimSpaceFrom FieldsFrom]. rewrite !Hw.
      rewrite IHa; [done | apply Hne | apply Hclose; by left].
    + intros pending. cbn [TrimSpaceFrom FieldsFrom]. rewrite !Hw.
      by rewrite IHc.
  - destruct (IH rest ltac:(simpl in Hlen; lia)) as (IHa & _ & IHc).
    assert (forall pending,
              (pending = "" \/
               forall x cur', FieldsFrom 0 cur' (pending +:+ x) =
                              flushField cur' ++ FieldsFrom 0 "" x) ->
              forall x cur',
                FieldsFrom 0 cur'
                  (((pending +:+ String c0 "") +:+ String c1 "") +:+ x) =
                flushField cur' ++ FieldsFrom 0 "" x) as Hclose.
    { intros pending Hp x cur'.
      rewrite !append_assoc, !append_cons, !append_nil_l.
      destruct Hp as [->|Hp].
      - rewrite append_nil_l. cbn [FieldsFrom]. by rewrite Hw.
      - rewrite Hp. cbn [FieldsFrom]. by rewrite Hw. }
    assert (forall pending,
              (pending +:+ String c0 "") +:+ String c1 "" <> "") as Hne
      by (intros [|? ?]; done).
    repeat split.
    + intros cur pending Hp Hws. cbn [TrimSpaceFrom FieldsFrom]. rewrite !Hw.
      cbn [TrimSpaceFrom FieldsFrom].
      rewrite IHa; [done | apply Hne | apply Hclose; by right].
    + intros cur. cbn [TrimSpaceFrom FieldsFrom]. rewrite !Hw.
      cbn [TrimSpaceFrom FieldsFrom].
      rewrite IHa; [done | apply Hne | apply Hclose; by left].
    + intros pending. cbn [TrimSpaceFrom FieldsFrom]. rewrite !Hw.
      cbn [TrimSpaceFrom FieldsFrom]. by rewrite IHc.
  - destruct (IH rest ltac:(simpl in Hlen; lia)) as (IHa & _ & IHc).
    assert (forall pending,
              (pending = "" \/
               forall x cur', FieldsFrom 0 cur' (pending +:+ x) =
                              flushField cur' ++ FieldsFrom 0 "" x) ->
              forall x cur',
                FieldsFrom 0 cur'
                  ((((pending +:+ String c0 "") +:+ String c1 "")
                      +:+ String c2 "") +:+ x) =
                flushField cur' ++ FieldsFrom 0 "" x) as Hclose.
    { intros pending Hp x cur'.
      rewrite !append_assoc, !append_cons, !append_nil_l.
      destruct Hp as [->|Hp].
      - rewrite append_nil_l. cbn [FieldsFrom]. by rewrite Hw.
      - rewrite Hp. cbn [FieldsFrom]. by rewrite Hw. }
    assert (forall pending,
              ((pending +:+ String c0 "") +:+ String c1 "")
                +:+ String c2 "" <> "") as Hne
      by (intros [|? ?]; done).
    repeat split.
    + intros cur pending Hp Hws. cbn [TrimSpaceFrom FieldsFrom]. rewrite !Hw.
      cbn [TrimSpaceFrom FieldsFrom].
      rewrite IHa; [done | apply Hne | apply Hclose; by right].
    + intros cur. cbn [TrimSpaceFrom FieldsFrom]. rewrite !Hw.
      cbn [TrimSpaceFrom FieldsFrom].
      rewrite IHa; [done | apply Hne | apply Hclose; by left].
    + intros pending. cbn [TrimSpaceFrom FieldsFrom]. rewrite !Hw.
      cbn [TrimSpaceFrom FieldsFrom]. by rewrite IHc.
Qed.

(** The fields of the trimmed text are the fields of the text: the call of
    [strings.TrimSpace] in [HandleMessageEvent] changes nothing of what is
    dispatched. *)
Theorem Fields_TrimSpace (text : string) :
  Fields (TrimSpace text) = Fields text.
Proof.
  apply (trimmedFields_by_length (String.length text) text (le_n _)).
Qed.

End Properties.

(** * The statements at sample inputs *)

#[local] Existing Instance sampleTables.

(** C7, as the claim states it, fails: the same [launch k8s huge] under two
    orders of the map loop, medium-large-xlarge and large-xlarge-medium,
    gives two different replies. *)
Lemma size_error_reply_varies :
  replies (launch_go.HandleLaunch (worldWith emptyCrClient [0; 0; 0]) quietApi
             (messageOf "launch k8s huge") ["k8s"; "huge"]) <>
  replies (launch_go.HandleLaunch (worldWith emptyCrClient [2; 0; 0]) quietApi
             (messageOf "launch k8s huge") ["k8s"; "huge"]).
Proof. vm_compute. discriminate. Qed.

(** C9, as the claim states it, fails: no start-up step looks at the keys.
    From a registry literal with the key [Launch], which is not lowercase,
    start-up with both tokens set ends with the bot running and the key
    still registered. *)
Lemma startup_accepts_uppercase_keyword :
  ToLower "Launch" <> "Launch"
  /\ exists reg : gmap string handlers.Command,
       startup (<["Launch" := handlers.launchCommand]> ∅) "xoxb-1" "xapp-1" =
         Running reg
       /\ reg !! "Launch" = Some handlers.launchCommand.
Proof.
  split; [vm_compute; discriminate|].
  eexists. split; [reflexivity|]. reflexivity.
Qed.

Lemma HandleLaunch_validation_order_witness :
  replies (launch_go.HandleLaunch (worldWith emptyCrClient []) quietApi
             (messageOf "launch k8s") ["k8s"]) =
    [("C1", "❌ Missing arguments." +:+ LF +:+ LF +:+ launchUsage)]
  /\ replies (launch_go.HandleLaunch (worldWith emptyCrClient []) quietApi
                (messageOf "launch BadType huge") ["BadType"; "huge"]) =
       [("C1",
         "❌ Unsupported cluster type: *badtype*" +:+ LF +:+
         "Supported types: `k8s`, `openshift`")]
  /\ (exists l1 l2 l3 : string,
        Permutation [l1; l2; l3]
          ["• `medium`: 8 CPUs, 32 GB RAM" +:+ LF;
           "• `large`: 16 CPUs, 64 GB RAM" +:+ LF;
           "• `xlarge`: 32 CPUs, 128 GB RAM" +:+ LF]
        /\ replies (launch_go.HandleLaunch (worldWith emptyCrClient [])
                      quietApi (messageOf "launch K8S Huge")
                      ["K8S"; "Huge"]) =
           [("C1",
             "❌ Invalid size: *huge*" +:+ LF +:+ "Valid sizes:" +:+ LF +:+
             l1 +:+ l2 +:+ l3)])
  /\ replies (commands.HandleLaunch (worldWith emptyCrClient []) quietApi
                (messageOf "launch K8S Huge") ["K8S"; "Huge"]) =
       replies (launch_go.HandleLaunch (worldWith emptyCrClient []) quietApi
                  (messageOf "launch K8S Huge") ["K8S"; "Huge"]).
Proof.
  pose proof (HandleLaunch_validation_order (worldWith emptyCrClient [])
                quietApi (messageOf "launch k8s")) as (H1 & _).
  pose proof (HandleLaunch_validation_order (worldWith emptyCrClient [])
                quietApi (messageOf "launch BadType huge")) as (_ & H2 & _).
  pose proof (HandleLaunch_validation_order (worldWith emptyCrClient [])
                quietApi (messageOf "launch K8S Huge")) as (_ & _ & H3 & H4).
  split; [|split; [|split]].
  - apply (H1 ["k8s"]). simpl. lia.
  - apply (H2 "BadType" "huge" []); vm_compute; discriminate.
  - destruct (H3 "K8S" "Huge" []) as (l1 & l2 & l3 & Hp & Hr & _);
      [left; reflexivity | vm_compute; discriminate ..|].
    exists l1, l2, l3. split; [exact Hp | exact Hr].
  - apply (H4 {| CrClient := emptyCrClient |} ["K8S"; "Huge"]). reflexivity.
Defined.

Lemma HandleLaunch_confirmation_witness :
  replies (launch_go.HandleLaunch (worldWith emptyCrClient []) quietApi
             (messageOf "launch K8S Large now")
             ["K8S"; "Large"; "now"]) =
    [("C1", launchText "k8s" "large" "U1" largeSpec)].
Proof.
  apply (HandleLaunch_confirmation (worldWith emptyCrClient []) quietApi
           (messageOf "launch K8S Large now") "K8S" "Large" ["now"]
           largeSpec);
    [left; reflexivity | reflexivity].
Defined.

Lemma size_error_lists_catalog_in_loop_order_witness :
  exists a1 a2 a3 b1 b2 b3 : string,
    Permutation [a1; a2; a3]
      ["• `medium`: 8 CPUs, 32 GB RAM" +:+ LF;
       "• `large`: 16 CPUs, 64 GB RAM" +:+ LF;
       "• `xlarge`: 32 CPUs, 128 GB RAM" +:+ LF]
    /\ Permutation [b1; b2; b3]
         ["• `medium`: 8 CPUs, 32 GB RAM" +:+ LF;
          "• `large`: 16 CPUs, 64 GB RAM" +:+ LF;
          "• `xlarge`: 32 CPUs, 128 GB RAM" +:+ LF]
    /\ replies (launch_go.HandleLaunch (worldWith emptyCrClient [0; 0; 0])
                 quietApi (messageOf "launch k8s huge") ["k8s"; "huge"]) =
       [("C1",
         "❌ Invalid size: *huge*" +:+ LF +:+ "Valid sizes:" +:+ LF +:+
         a1 +:+ a2 +:+ a3)]
    /\ replies (launch_go.HandleLaunch (worldWith emptyCrClient [2; 0; 0])
                 quietApi (messageOf "launch k8s huge") ["k8s"; "huge"]) =
       [("C1",
         "❌ Invalid size: *huge*" +:+ LF +:+ "Valid sizes:" +:+ LF +:+
         b1 +:+ b2 +:+ b3)].
Proof.
  apply (size_error_lists_catalog_in_loop_order
           (worldWith emptyCrClient [0; 0; 0])
           (worldWith emptyCrClient [2; 0; 0]) quietApi
           (messageOf "launch k8s huge") "k8s" "huge" []);
    [left; reflexivity | vm_compute; discriminate ..].
Defined.

Lemma HandleMessageEvent_routes_witness :
  handlers.HandleMessageEvent (worldWith emptyCrClient []) quietApi
    (messageOf "  LAUNCH K8S  Large ") handlers.commandRegistry =
    (emit (LogPrintf "Received 'launch' command from user U1 in channel C1") ;;;
     commands.HandleLaunch (worldWith emptyCrClient []) quietApi
       (messageOf "  LAUNCH K8S  Large ") ["K8S"; "Large"] ;;;
     ret (tt, handlers.commandRegistry))
  /\ replies (handlers.HandleMessageEvent (worldWith emptyCrClient [])
               quietApi (messageOf "  LAUNCH K8S  Large ")
               handlers.commandRegistry) =
     [("C1",
       "🚀 Launching a *k8s* cluster of size *large* for <@U1>" +:+ LF +:+
       "• CPU: 16 CPUs" +:+ LF +:+ "• Memory: 64 GB RAM")]
  /\ handlers.HandleMessageEvent (worldWith emptyCrClient []) quietApi
       (messageOf "Deploy now") handlers.commandRegistry =
       ([LogPrintf
           "Unknown command 'deploy' from user U1 in channel C1. Showing help.";
         PostMessage "C1" (handlers.helpText [] handlers.commandRegistry)],
        Some (tt, handlers.commandRegistry)).
Proof.
  pose proof (HandleMessageEvent_routes (worldWith emptyCrClient []) quietApi
                (messageOf "  LAUNCH K8S  Large ") "LAUNCH" ["K8S"; "Large"]
                eq_refl eq_refl) as (_ & _ & H1 & _).
  pose proof (HandleMessageEvent_routes (worldWith emptyCrClient []) quietApi
                (messageOf "Deploy now") "Deploy" ["now"]
                eq_refl eq_refl) as (_ & _ & _ & _ & _ & H2).
  split; [|split].
  - apply H1. reflexivity.
  - rewrite H1 by reflexivity. reflexivity.
  - apply H2; vm_compute; discriminate.
Defined.

Lemma HandleMessageEvent_silent_witness :
  handlers.HandleMessageEvent (worldWith emptyCrClient []) quietApi
    (messageOf "   ") handlers.commandRegistry =
    ([], Some (tt, handlers.commandRegistry))
  /\ handlers.HandleMessageEvent (worldWith emptyCrClient []) quietApi
       (messageOf "") handlers.commandRegistry =
       ([], Some (tt, handlers.commandRegistry))
  /\ handlers.HandleMessageEvent (worldWith emptyCrClient []) quietApi
       {| BotID := "B42"; Text := "launch k8s large"; User := "U1";
          Channel := "C1" |} handlers.commandRegistry =
       ([], Some (tt, handlers.commandRegistry)).
Proof.
  split; [|split]; apply HandleMessageEvent_silent.
  - right. reflexivity.
  - right. reflexivity.
  - left. discriminate.
Defined.

Lemma registered_keywords_lowercase_witness :
  ToLower "list" = "list"
  /\ handlers.commandRegistry !! ToLower "LiSt" =
     handlers.commandRegistry !! "list"
  /\ startup handlers.commandRegistry_literal "xoxb-1" "xapp-1" =
     Running handlers.commandRegistry.
Proof.
  destruct registered_keywords_lowercase as (H1 & H2 & H3).
  split; [|split].
  - apply H1. by eexists.
  - apply H2; [by eexists | reflexivity].
  - apply (H3 handlers.commandRegistry_literal "xoxb-1" "xapp-1");
      discriminate.
Defined.

Lemma commandRegistry_fixed_witness :
  result (Run [ {| world := worldWith emptyCrClient [];
                   api := quietApi;
                   event := messageOf "launch k8s large" |};
                {| world := worldWith emptyCrClient [2; 1];
                   api := quietApi;
                   event := messageOf "help" |} ]
            handlers.commandRegistry) = Some handlers.commandRegistry.
Proof.
  destruct commandRegistry_fixed as (_ & _ & _ & _ & H & _).
  destruct (result (Run _ handlers.commandRegistry)) as [reg'|] eqn:E.
  - f_equal. exact (H _ _ E).
  - vm_compute in E. discriminate E.
Defined.


Lemma HandleList_failure_witness :
  replies (commands.HandleList noConfigWorld quietApi (messageOf "list") []) =
    [("C1", "❌ Failed to connect to Kubernetes cluster")]
  /\ replies (commands.HandleList
               (worldWith {| List_KindList := Err "forbidden";
                             List_OpenshiftList := Ok sampleOpenshifts;
                             List_nil := None |} [])
               quietApi (messageOf "list") []) =
     [("C1", "❌ Failed to retrieve cluster list")]
  /\ replies (commands.HandleList
               (worldWith {| List_KindList := Ok sampleKinds;
                             List_OpenshiftList := Err "timeout";
                             List_nil := None |} [])
               quietApi (messageOf "list") []) =
     [("C1", "❌ Failed to retrieve cluster list")].
Proof.
  split; [|split].
  - apply (proj1 (HandleList_failure noConfigWorld quietApi
                    (messageOf "list") [])
             "could not locate a kubeconfig").
    reflexivity.
  - apply (proj1 (proj2 (HandleList_failure _ quietApi (messageOf "list") []))
             {| CrClient := {| List_KindList := Err "forbidden";
                               List_OpenshiftList := Ok sampleOpenshifts;
                               List_nil := None |} |} "forbidden");
      reflexivity.
  - apply (proj2 (proj2 (HandleList_failure _ quietApi (messageOf "list") []))
             {| CrClient := {| List_KindList := Ok sampleKinds;
                               List_OpenshiftList := Err "timeout";
                               List_nil := None |} |} sampleKinds "timeout");
      reflexivity.
Defined.

Lemma GetKubernetesClient_first_failure_witness :
  GetKubernetesClient
    {| config_GetConfig := None;
       kubernetes_NewForConfig := Some "invalid host";
       dynamic_NewForConfig := Some "unreachable";
       crclient_New := Err "no scheme";
       range_seed := [] |} = (None, Some "invalid host").
Proof.
  apply (proj1 (proj2 (proj2 (GetKubernetesClient_first_failure _))));
    reflexivity.
Defined.

Lemma commands_HandleLaunch_needs_client_witness :
  commands.HandleLaunch noConfigWorld quietApi (messageOf "launch k8s")
    ["k8s"] =
    launch_go.HandleLaunch noConfigWorld quietApi (messageOf "launch k8s")
      ["k8s"]
  /\ commands.HandleLaunch noConfigWorld quietApi
       (messageOf "launch bad worse") ["bad"; "worse"] =
     ([LogPrintf
         "Error getting kubernetes clinet: could not locate a kubeconfig"],
      None).
Proof.
  split.
  - apply (proj1 (commands_HandleLaunch_needs_client noConfigWorld quietApi
                    (messageOf "launch k8s") ["k8s"])).
    simpl. lia.
  - apply (proj2 (commands_HandleLaunch_needs_client noConfigWorld quietApi
                    (messageOf "launch bad worse") ["bad"; "worse"])
             "could not locate a kubeconfig");
      [simpl; lia | reflexivity].
Defined.

Lemma HandleList_failure_logged_witness :
  trace (commands.HandleList noConfigWorld quietApi (messageOf "list") []) =
    [LogPrintf "Error getting kubernetes client: could not locate a kubeconfig";
     PostMessage "C1" "❌ Failed to connect to Kubernetes cluster"].
Proof.
  apply (proj1 (HandleList_failure_logged noConfigWorld quietApi
                  (messageOf "list") [])
           "could not locate a kubeconfig").
  reflexivity.
Defined.

Lemma handleHelp_lists_registry_witness :
  Contains
    (handlers.helpText [1; 0] handlers.commandRegistry)
    (LF +:+ "• *list* — List all mapt clusters." +:+ LF +:+
     "  _Usage:_ `list`" +:+ LF) = true.
Proof.
  apply (proj2 (proj2 (handleHelp_lists_registry
                         (worldWith emptyCrClient [1; 0]) quietApi
                         (messageOf "help") [] handlers.commandRegistry))
           "list" handlers.listCommand).
  reflexivity.
Defined.

Lemma help_and_unknown_keyword_reply_witness :
  replies (handlers.HandleMessageEvent (worldWith emptyCrClient []) quietApi
             (messageOf "HELP me please") handlers.commandRegistry) =
    [("C1", handlers.helpText [] handlers.commandRegistry)]
  /\ replies (handlers.HandleMessageEvent (worldWith emptyCrClient [])
               quietApi (messageOf "done") handlers.commandRegistry) =
     [("C1", handlers.helpText [] handlers.commandRegistry)].
Proof.
  split.
  - apply (help_and_unknown_keyword_reply (worldWith emptyCrClient [])
             quietApi (messageOf "HELP me please") "HELP" ["me"; "please"]);
      [reflexivity | reflexivity | left; reflexivity].
  - apply (help_and_unknown_keyword_reply (worldWith emptyCrClient [])
             quietApi (messageOf "done") "done" []);
      [reflexivity | reflexivity | right; reflexivity].
Defined.

Lemma HandleMessageEvent_reads_fields_only_witness :
  handlers.HandleMessageEvent (worldWith sampleCrClient []) quietApi
    (messageOf "  launch   k8s large  ") handlers.commandRegistry =
  handlers.HandleMessageEvent (worldWith sampleCrClient []) quietApi
    (messageOf "launch k8s large") handlers.commandRegistry.
Proof.
  apply HandleMessageEvent_reads_fields_only; reflexivity.
Defined.

Lemma launch_without_arguments_witness :
  replies (handlers.HandleMessageEvent noConfigWorld quietApi
             (messageOf "Launch k8s") handlers.commandRegistry) =
    [("C1", "❌ Missing arguments." +:+ LF +:+ LF +:+ launchUsage)].
Proof.
  apply (launch_without_arguments noConfigWorld quietApi
           (messageOf "Launch k8s") "Launch" ["k8s"]);
    [reflexivity | reflexivity | reflexivity | simpl; lia].
Defined.

Lemma isSupportedClusterType_exact_witness :
  isSupportedClusterType "K8S" = false.
Proof.
  apply (proj2 (isSupportedClusterType_exact "K8S")).
  vm_compute. discriminate.
Defined.

Lemma Run_handles_message_events_witness :
  handled (slack.Run sampleArrivals handlers.commandRegistry).1 =
    trace (Run [ {| world := worldWith sampleCrClient [];
                    api := quietApi;
                    event := messageOf "list" |} ]
             handlers.commandRegistry).
Proof.
  apply (proj1 (Run_handles_message_events sampleArrivals
                  handlers.commandRegistry
                  ltac:(repeat constructor; simpl; discriminate))).
Defined.

Lemma Run_acks_events_api_witness :
  exists t : list slack.LoopEffect,
    slack.Run sampleArrivals handlers.commandRegistry =
      (t, Some handlers.commandRegistry)
    /\ acked t = ["env-1"; "env-2"].
Proof.
  eexists. split; [reflexivity|].
  apply (Run_acks_events_api sampleArrivals handlers.commandRegistry
           handlers.commandRegistry).
  reflexivity.
Defined.

Lemma launch_without_client_stops_the_loop_witness :
  slack.Run
    [ {| slack.arrival_world := noConfigWorld;
         slack.arrival_api := quietApi;
         slack.arrival_event :=
           {| slack.Type_ := slack.EventTypeEventsAPI;
              slack.Data :=
                slack.EventsAPIEventData
                  (events.MessageEventData (messageOf "launch k8s large"));
              slack.Request := Some "env-7" |} |};
      {| slack.arrival_world := worldWith sampleCrClient [];
         slack.arrival_api := quietApi;
         slack.arrival_event :=
           {| slack.Type_ := slack.EventTypeEventsAPI;
              slack.Data :=
                slack.EventsAPIEventData
                  (events.MessageEventData (messageOf "list"));
              slack.Request := Some "env-8" |} |} ]
    handlers.commandRegistry =
    ([slack.Ack "env-7";
      slack.Handling
        (LogPrintf "Received 'launch' command from user U1 in channel C1");
      slack.Handling
        (LogPrintf
           "Error getting kubernetes clinet: could not locate a kubeconfig")],
     None).
Proof.
  apply (launch_without_client_stops_the_loop _ _ "env-7"
           (messageOf "launch k8s large") "launch" ["k8s"; "large"]
           "could not locate a kubeconfig");
    first [reflexivity | simpl; lia].
Defined.

Lemma HandleLaunch_reads_lowercase_pair_witness :
  launch_go.HandleLaunch (worldWith emptyCrClient []) quietApi
    (messageOf "launch OpenShift XLARGE") ["OpenShift"; "XLARGE"] =
  launch_go.HandleLaunch (worldWith emptyCrClient []) quietApi
    (messageOf "launch OpenShift XLARGE") ["openshift"; "xlarge"; "please"].
Proof.
  apply (proj1 (HandleLaunch_reads_lowercase_pair
                  (worldWith emptyCrClient []) quietApi
                  (messageOf "launch OpenShift XLARGE")
                  "OpenShift" "XLARGE" "openshift" "xlarge" [] ["please"]
                  eq_refl eq_refl)).
Defined.
